(** * LayeredRecorder: the multi-level activity recording addon

    A shallow embedding of [.mitmproxy/record_addon.py].  The recorder
    object is a record of its attributes, every handler is a function from
    recorder to recorder, and [done] runs in a small state-and-exception
    monad over the recorder and the session directory's files.

    Conventions of the embedding:
    - [datetime.now()] is the [clock] oracle: its n-th call in the process
      returns [clock n], a count of microseconds; the recorder carries the
      number of calls made so far in [ticks].  A [timedelta] is a number of
      microseconds, and the float [total_seconds() * 1000] is the exact
      rational with the same value.
    - [isoformat] and [bytes.decode('utf-8', errors='replace')] are Python
      built-ins and are parameters of the development.
    - the fixed-shape dicts built by the handlers are records; a key that is
      only sometimes set ([body_size], [body_preview]) is an [option] field,
      [None] meaning that the key is absent; [duration_ms] and
      [response_time_ms] hold Python's [None] as [None].
    - [headers] is the mapping the engine presents, one value per name:
      [dict(headers)] copies it and [len(headers)] is its size.
    - a JSON document is the value handed to [json.dump]; a write fails
      either in [open], which leaves the file as it was, or after it, which
      leaves the file truncated.
    - [har_data], which no method reads or writes after [__init__], and the
      time stamps the logging module puts on the lines of [recorder.log]
      are left out. *)

From stdpp Require Import gmap strings list fin_maps pretty.
From Stdlib Require Import Ascii QArith.

Local Open Scope string_scope.
Local Open Scope Z_scope.

(** ** Flows, as the interception engine presents them *)

Definition bytes := list Byte.byte.

(** [flow.request]: [content] is [None] or the raw body; [text] is the
    best-effort decoded body, [None] when reading or slicing it raises. *)
Record http_request := {
  method : string;
  url : string;
  headers : gmap string string;
  http_version : string;
  content : option bytes;
  text : option string
}.

Record http_response := {
  status_code : Z;
  resp_headers : gmap string string;
  resp_http_version : string;
  resp_content : option bytes;
  resp_text : option string
}.

Record WebSocketMessage := {
  from_client : bool;
  msg_content : bytes
}.

(** A flow as a handler reads it.  [response] is read by the response hook
    only, which the engine calls once the response is there. *)
Module Flow.
Record t := {
  id : string;
  request : http_request;
  response : http_response;
  messages : list WebSocketMessage
}.
End Flow.

Abbreviation flow := Flow.t.

(** ** Entries built by the handlers *)

Record request_entry := {
  rq_timestamp : string;
  rq_method : string;
  rq_url : string;
  rq_headers : gmap string string;
  rq_http_version : string;
  rq_flow_id : string;
  rq_body_size : option nat;
  rq_body_preview : option string
}.

Record response_entry := {
  rs_timestamp : string;
  rs_status_code : Z;
  rs_headers : gmap string string;
  rs_http_version : string;
  rs_duration_ms : option Q;
  rs_url : string;
  rs_flow_id : string;
  rs_body_size : option nat;
  rs_body_preview : option string
}.

(** An element of [network_log]; the constructor is the entry's ["type"]. *)
Inductive activity_entry :=
  | RequestEntry (e : request_entry)
  | ResponseEntry (e : response_entry).

Definition entry_type (x : activity_entry) : string :=
  match x with
  | RequestEntry _ => "request"
  | ResponseEntry _ => "response"
  end.

Definition entry_timestamp (x : activity_entry) : string :=
  match x with
  | RequestEntry e => rq_timestamp e
  | ResponseEntry e => rs_timestamp e
  end.

Definition entry_body_size (x : activity_entry) : option nat :=
  match x with
  | RequestEntry e => rq_body_size e
  | ResponseEntry e => rs_body_size e
  end.

Definition entry_body_preview (x : activity_entry) : option string :=
  match x with
  | RequestEntry e => rq_body_preview e
  | ResponseEntry e => rs_body_preview e
  end.

(** A value of [performance_metrics]. *)
Record performance_record := {
  pm_status : Z;
  pm_response_time_ms : option Q;
  pm_content_size_bytes : nat;
  pm_headers_count : nat;
  pm_request_method : string;
  pm_timestamp : string
}.

(** An element of [websocket_messages]; its ["type"] is always
    ["websocket"]. *)
Record ws_entry := {
  ws_timestamp : string;
  ws_direction : string;
  ws_message : string;
  ws_flow_id : string;
  ws_url : string
}.

(** ** The recorder *)

Inductive log_level := DEBUG | INFO | ERROR.

Record recorder := {
  record_level : Z;
  session_name : string;
  network_log : list activity_entry;
  performance_metrics : gmap string performance_record;
  websocket_messages : list ws_entry;
  request_timestamps : gmap string Z;
  logger : list (log_level * string);
  ticks : nat
}.

(** [self.session_dir], as [str] prints it, and a file in it. *)
Definition session_dir (s : recorder) : string :=
  "activity_sessions/" +:+ session_name s.

Definition in_session_dir (s : recorder) (name : string) : string :=
  session_dir s +:+ "/" +:+ name.

Definition log (lvl : log_level) (msg : string) (s : recorder) : recorder :=
  {| record_level := record_level s;
     session_name := session_name s;
     network_log := network_log s;
     performance_metrics := performance_metrics s;
     websocket_messages := websocket_messages s;
     request_timestamps := request_timestamps s;
     logger := logger s ++ [(lvl, msg)];
     ticks := ticks s |}.

Definition tick (s : recorder) : recorder :=
  {| record_level := record_level s;
     session_name := session_name s;
     network_log := network_log s;
     performance_metrics := performance_metrics s;
     websocket_messages := websocket_messages s;
     request_timestamps := request_timestamps s;
     logger := logger s;
     ticks := S (ticks s) |}.

Definition set_record_level (l : Z) (s : recorder) : recorder :=
  {| record_level := l;
     session_name := session_name s;
     network_log := network_log s;
     performance_metrics := performance_metrics s;
     websocket_messages := websocket_messages s;
     request_timestamps := request_timestamps s;
     logger := logger s;
     ticks := ticks s |}.

Definition stamp (fid : string) (t : Z) (s : recorder) : recorder :=
  {| record_level := record_level s;
     session_name := session_name s;
     network_log := network_log s;
     performance_metrics := performance_metrics s;
     websocket_messages := websocket_messages s;
     request_timestamps := <[fid := t]> (request_timestamps s);
     logger := logger s;
     ticks := ticks s |}.

Definition append_network (x : activity_entry) (s : recorder) : recorder :=
  {| record_level := record_level s;
     session_name := session_name s;
     network_log := network_log s ++ [x];
     performance_metrics := performance_metrics s;
     websocket_messages := websocket_messages s;
     request_timestamps := request_timestamps s;
     logger := logger s;
     ticks := ticks s |}.

Definition set_metrics (u : string) (r : performance_record) (s : recorder)
  : recorder :=
  {| record_level := record_level s;
     session_name := session_name s;
     network_log := network_log s;
     performance_metrics := <[u := r]> (performance_metrics s);
     websocket_messages := websocket_messages s;
     request_timestamps := request_timestamps s;
     logger := logger s;
     ticks := ticks s |}.

Definition append_websocket (x : ws_entry) (s : recorder) : recorder :=
  {| record_level := record_level s;
     session_name := session_name s;
     network_log := network_log s;
     performance_metrics := performance_metrics s;
     websocket_messages := websocket_messages s ++ [x];
     request_timestamps := request_timestamps s;
     logger := logger s;
     ticks := ticks s |}.

(** Python truthiness of [content]: neither [None] nor empty. *)
Definition truthy (c : option bytes) : bool :=
  match c with
  | Some (_ :: _) => true
  | _ => false
  end.

Definition content_length (c : option bytes) : nat :=
  match c with
  | Some b => length b
  | None => 0%nat
  end.

(** [s[:n]] *)
Definition prefix (n : nat) (s : string) : string := String.substring 0 n s.

(** [try: preview = text[:500]  except: preview = "[binary data]"] *)
Definition body_preview (t : option string) : string :=
  match t with
  | Some s => prefix 500 s
  | None => "[binary data]"
  end.

(** [str.replace(':', '-')] *)
Fixpoint replace_colons (s : string) : string :=
  match s with
  | EmptyString => EmptyString
  | String c r =>
      String (if Ascii.eqb c ":"%char then "-"%char else c) (replace_colons r)
  end.

(** [timedelta.total_seconds() * 1000] of a difference of [d] microseconds. *)
Definition total_seconds (d : Z) : Q := d # 1000000.

Definition milliseconds (d : Z) : Q := (total_seconds d * 1000)%Q.

(** ** The handlers *)

Section Handlers.

(** [datetime.now()]: the reading of the n-th call, in microseconds. *)
Variable clock : nat -> Z.
(** [datetime.isoformat()] *)
Variable isoformat : Z -> string.
(** [bytes.decode('utf-8', errors='replace')] *)
Variable decode_replace : bytes -> string.

(** [__init__(record_level)], in a process that has not read the clock
    yet. *)
Definition init (level : Z) : recorder :=
  let timestamp := replace_colons (isoformat (clock 0)) in
  let s := {| record_level := level;
              session_name := timestamp;
              network_log := [];
              performance_metrics := ∅;
              websocket_messages := [];
              request_timestamps := ∅;
              logger := [];
              ticks := 1 |} in
  let s := log INFO ("LayeredRecorder initialized with level " +:+ pretty level) s in
  log INFO ("Session directory: " +:+ session_dir s) s.

Definition load (s : recorder) : recorder :=
  log INFO "LayeredRecorder loaded successfully" s.

(** [configure(updated)], with [option_level] the value of
    [ctx.options.record_level]. *)
Definition configure (s : recorder) (updated : gset string) (option_level : Z)
  : recorder :=
  if bool_decide ("record_level" ∈ updated) then
    let s := set_record_level option_level s in
    log INFO ("Record level updated to: " +:+ pretty (record_level s)) s
  else s.

Definition requestheaders (s : recorder) (f : flow) : recorder :=
  let timestamp := clock (ticks s) in
  let s := tick s in
  let s := stamp (Flow.id f) timestamp s in
  let with_body := (2 <=? record_level s) && truthy (content (Flow.request f)) in
  let request_entry :=
    {| rq_timestamp := isoformat timestamp;
       rq_method := method (Flow.request f);
       rq_url := url (Flow.request f);
       rq_headers := headers (Flow.request f);
       rq_http_version := http_version (Flow.request f);
       rq_flow_id := Flow.id f;
       rq_body_size :=
         if with_body then Some (content_length (content (Flow.request f)))
         else None;
       rq_body_preview :=
         if with_body then Some (body_preview (text (Flow.request f)))
         else None |} in
  let s := append_network (RequestEntry request_entry) s in
  log DEBUG ("Request logged: " +:+ method (Flow.request f) +:+ " "
             +:+ url (Flow.request f)) s.

(** [duration_ms] as the response handler computes it at reading [now]. *)
Definition duration_at (s : recorder) (fid : string) (now : Z) : option Q :=
  match request_timestamps s !! fid with
  | Some start => Some (milliseconds (now - start))
  | None => None
  end.

Definition response (s : recorder) (f : flow) : recorder :=
  let timestamp := clock (ticks s) in
  let s := tick s in
  let duration_ms := duration_at s (Flow.id f) timestamp in
  let with_body :=
    (2 <=? record_level s) && truthy (resp_content (Flow.response f)) in
  let response_entry :=
    {| rs_timestamp := isoformat timestamp;
       rs_status_code := status_code (Flow.response f);
       rs_headers := resp_headers (Flow.response f);
       rs_http_version := resp_http_version (Flow.response f);
       rs_duration_ms := duration_ms;
       rs_url := url (Flow.request f);
       rs_flow_id := Flow.id f;
       rs_body_size :=
         if with_body then Some (content_length (resp_content (Flow.response f)))
         else None;
       rs_body_preview :=
         if with_body then Some (body_preview (resp_text (Flow.response f)))
         else None |} in
  let s :=
    if 3 <=? record_level s then
      set_metrics (url (Flow.request f))
        {| pm_status := status_code (Flow.response f);
           pm_response_time_ms := duration_ms;
           pm_content_size_bytes :=
             if truthy (resp_content (Flow.response f))
             then content_length (resp_content (Flow.response f)) else 0%nat;
           pm_headers_count := size (resp_headers (Flow.response f));
           pm_request_method := method (Flow.request f);
           pm_timestamp := isoformat timestamp |} s
    else s in
  let s := append_network (ResponseEntry response_entry) s in
  log DEBUG ("Response logged: " +:+ pretty (status_code (Flow.response f))
             +:+ " for " +:+ url (Flow.request f)) s.

(** The body of the loop of [websocket_message], for one [message]. *)
Definition log_message (f : flow) (s : recorder) (message : WebSocketMessage)
  : recorder :=
  let ws_entry :=
    {| ws_timestamp := isoformat (clock (ticks s));
       ws_direction :=
         if from_client message then "client_to_server"
         else "server_to_client";
       ws_message := prefix 1000 (decode_replace (msg_content message));
       ws_flow_id := Flow.id f;
       ws_url := url (Flow.request f) |} in
  let s := tick s in
  let s := append_websocket ws_entry s in
  log DEBUG ("WebSocket message logged: " +:+ ws_direction ws_entry) s.

Definition websocket_message (s : recorder) (f : flow) : recorder :=
  if 4 <=? record_level s then foldl (log_message f) s (Flow.messages f) else s.

Definition websocket_end (s : recorder) (f : flow) : recorder :=
  if 4 <=? record_level s then
    log INFO ("WebSocket connection ended for " +:+ url (Flow.request f)) s
  else s.

(** ** What the host sends to the recorder *)

Inductive event :=
  | Configure (updated : gset string) (option_level : Z)
  | RequestHeaders (f : flow)
  | Response (f : flow)
  | WebsocketMessage (f : flow)
  | WebsocketEnd (f : flow).

Definition handle (s : recorder) (e : event) : recorder :=
  match e with
  | Configure updated option_level => configure s updated option_level
  | RequestHeaders f => requestheaders s f
  | Response f => response s f
  | WebsocketMessage f => websocket_message s f
  | WebsocketEnd f => websocket_end s f
  end.

(** The recorder after a sequence of events, in the order of arrival. *)
Definition run (s : recorder) (evs : list event) : recorder :=
  foldl handle s evs.

End Handlers.

(** ** Session persistence *)

(** The ["files"] object of the summary; [None] is JSON's [null]. *)
Record summary_files := {
  f_network_activity : string;
  f_performance_metrics : option string;
  f_websocket_messages : option string;
  f_recorder_log : string
}.

Record summary := {
  sm_session_id : string;
  sm_record_level : Z;
  sm_start_time : option string;
  sm_end_time : string;
  sm_total_requests : nat;
  sm_total_responses : nat;
  sm_performance_metrics_count : nat;
  sm_websocket_messages_count : nat;
  sm_files : summary_files
}.

(** The value a file of the session directory was last written from. *)
Inductive document :=
  | NetworkActivity (entries : list activity_entry)
  | PerformanceMetrics (metrics : gmap string performance_record)
  | WebsocketMessages (entries : list ws_entry)
  | SessionSummary (sm : summary)
  | Truncated.

(** [Truncated] is what a file holds that was opened for writing, which
    empties it, and whose dump did not complete: nothing, or the beginning
    of a document. *)

(** How a dump fails: [open] raises and the file is as it was, or the file
    was opened and writing to it or closing it raises. *)
Inductive write_failure :=
  | OpenFails (e : string)
  | WriteFails (e : string).

(** [str(e)] of the exception. *)
Definition exception_of (fl : write_failure) : string :=
  match fl with
  | OpenFails e => e
  | WriteFails e => e
  end.

(** The recorder together with the files written so far, by path. *)
Record world := {
  self : recorder;
  files : gmap string document
}.

(** A statement either completes or raises an exception, of which the
    model keeps [str(e)]. *)
Inductive outcome (A : Type) :=
  | Returned (a : A)
  | Raised (e : string).
Arguments Returned {A} a.
Arguments Raised {A} e.

Definition action (A : Type) : Type := world -> world * outcome A.

#[global] Instance action_ret : MRet action := λ A a w, (w, Returned a).

#[global] Instance action_bind : MBind action := λ A B k m w,
  match m w with
  | (w', Returned a) => k a w'
  | (w', Raised e) => (w', Raised e)
  end.

Definition raise {A} (e : string) : action A := λ w, (w, Raised e).

(** [try: body  except Exception as e: handler(e)] *)
Definition try_except {A} (body : action A) (handler : string -> action A)
  : action A := λ w,
  match body w with
  | (w', Raised e) => handler e w'
  | r => r
  end.

Definition get_self : action recorder := λ w, (w, Returned (self w)).

Definition logging (lvl : log_level) (msg : string) : action unit := λ w,
  ({| self := log lvl msg (self w); files := files w |}, Returned tt).

Definition pass : action unit := mret tt.

Section Persistence.

Variable clock : nat -> Z.
Variable isoformat : Z -> string.
(** [write_error path] is how dumping to [path] fails, [None] when it does
    not. *)
Variable write_error : string -> option write_failure.

Definition now : action Z := λ w,
  ({| self := tick (self w); files := files w |},
   Returned (clock (ticks (self w)))).

(** [with open(path, "w") as f: json.dump(d, f, indent=2)] *)
Definition dump (path : string) (d : document) : action unit := λ w,
  match write_error path with
  | Some (OpenFails e) => (w, Raised e)
  | Some (WriteFails e) =>
      ({| self := self w; files := <[path := Truncated]> (files w) |},
       Raised e)
  | None =>
      ({| self := self w; files := <[path := d]> (files w) |}, Returned tt)
  end.

Definition count_type (ty : string) (l : list activity_entry) : nat :=
  length (filter (λ x, entry_type x = ty) l).

(** The [summary] dict of [done], built at clock reading [end_time]. *)
Definition session_summary (s : recorder) (end_time : Z) : summary :=
  {| sm_session_id := session_name s;
     sm_record_level := record_level s;
     sm_start_time := entry_timestamp <$> head (network_log s);
     sm_end_time := isoformat end_time;
     sm_total_requests := count_type "request" (network_log s);
     sm_total_responses := count_type "response" (network_log s);
     sm_performance_metrics_count := size (performance_metrics s);
     sm_websocket_messages_count := length (websocket_messages s);
     sm_files :=
       {| f_network_activity := in_session_dir s "network_activity.json";
          f_performance_metrics :=
            if bool_decide (performance_metrics s ≠ ∅)
            then Some (in_session_dir s "performance_metrics.json")
            else None;
          f_websocket_messages :=
            if bool_decide (websocket_messages s ≠ [])
            then Some (in_session_dir s "websocket_messages.json")
            else None;
          f_recorder_log := in_session_dir s "recorder.log" |} |}.

(** The body of the [try] of [done]. *)
Definition save_all : action unit :=
  s ← get_self;
  let network_file := in_session_dir s "network_activity.json" in
  dump network_file (NetworkActivity (network_log s)) ;;
  logging INFO ("Network activity saved: " +:+ network_file) ;;
  let request_count := count_type "request" (network_log s) in
  let response_count := count_type "response" (network_log s) in
  logging INFO ("Total requests: " +:+ pretty request_count
                +:+ ", Total responses: " +:+ pretty response_count) ;;
  (if bool_decide (performance_metrics s ≠ ∅) then
     let metrics_file := in_session_dir s "performance_metrics.json" in
     dump metrics_file (PerformanceMetrics (performance_metrics s)) ;;
     logging INFO ("Performance metrics saved: " +:+ metrics_file) ;;
     logging INFO ("Performance entries: "
                   +:+ pretty (size (performance_metrics s)))
   else pass) ;;
  (if bool_decide (websocket_messages s ≠ []) then
     let ws_file := in_session_dir s "websocket_messages.json" in
     dump ws_file (WebsocketMessages (websocket_messages s)) ;;
     logging INFO ("WebSocket messages saved: " +:+ ws_file) ;;
     logging INFO ("WebSocket entries: "
                   +:+ pretty (length (websocket_messages s)))
   else pass) ;;
  end_time ← now;
  let summary_file := in_session_dir s "session_summary.json" in
  dump summary_file (SessionSummary (session_summary s end_time)) ;;
  logging INFO ("Session summary saved: " +:+ summary_file) ;;
  logging INFO "LayeredRecorder session completed successfully".

Definition done : action unit :=
  logging INFO "Saving recorded data..." ;;
  try_except save_all
    (λ e, logging ERROR ("Error saving recorded data: " +:+ e) ;; raise e).

End Persistence.

(** ** Sessions *)

Section Sessions.

Variable clock : nat -> Z.
Variable isoformat : Z -> string.
Variable decode_replace : bytes -> string.

(** The level in force when each event of a sequence is handled. *)
Fixpoint levels (s : recorder) (evs : list event) : list Z :=
  match evs with
  | [] => []
  | e :: evs =>
      record_level s
        :: levels (handle clock isoformat decode_replace s e) evs
  end.

(** The URLs of the responses of a sequence of events. *)
Definition response_urls (evs : list event) : list string :=
  omap (λ e, match e with
             | Response f => Some (url (Flow.request f))
             | _ => None
             end) evs.

(** The engine receives a message on a streaming connection: it appends
    the message to the [messages] of the connection's flow. *)
Definition receive (f : flow) (m : WebSocketMessage) : flow :=
  {| Flow.id := Flow.id f;
     Flow.request := Flow.request f;
     Flow.response := Flow.response f;
     Flow.messages := Flow.messages f ++ [m] |}.

(** A streaming connection delivers [ms]: the engine calls
    [websocket_message] once per message, with the connection's flow. *)
Fixpoint deliver (s : recorder) (f : flow) (ms : list WebSocketMessage)
  : recorder * flow :=
  match ms with
  | [] => (s, f)
  | m :: ms =>
      let f := receive f m in
      deliver (websocket_message clock isoformat decode_replace s f) f ms
  end.

(** The connection delivers [ms] and then ends. *)
Definition stream (s : recorder) (f : flow) (ms : list WebSocketMessage)
  : recorder :=
  let '(s, f) := deliver s f ms in websocket_end s f.

End Sessions.

(** The entry a response handler call appended last, if any. *)
Definition last_response (s : recorder) : option response_entry :=
  match last (network_log s) with
  | Some (ResponseEntry e) => Some e
  | _ => None
  end.

Definition no_body (x : activity_entry) : Prop :=
  entry_body_size x = None ∧ entry_body_preview x = None.

(** ** What a call of [done] writes *)

(** The documents [done] dumps when called on [s] and reading [end_time]
    off the clock, in the order of the calls: the two middle ones only for a
    non-empty store, the summary last. *)
Definition documents (isoformat : Z -> string) (s : recorder) (end_time : Z)
  : list (string * document) :=
  ([(in_session_dir s "network_activity.json", NetworkActivity (network_log s))]
   ++ (if bool_decide (performance_metrics s ≠ ∅)
       then [(in_session_dir s "performance_metrics.json",
              PerformanceMetrics (performance_metrics s))]
       else [])
   ++ (if bool_decide (websocket_messages s ≠ [])
       then [(in_session_dir s "websocket_messages.json",
              WebsocketMessages (websocket_messages s))]
       else [])
   ++ [(in_session_dir s "session_summary.json",
        SessionSummary (session_summary isoformat s end_time))])%list.

(** Dumping documents one after the other, up to the first that fails. *)
Fixpoint write_all (write_error : string -> option write_failure)
    (docs : list (string * document)) (fs : gmap string document)
  : gmap string document * option string :=
  match docs with
  | [] => (fs, None)
  | (path, d) :: docs =>
      match write_error path with
      | Some (OpenFails e) => (fs, Some e)
      | Some (WriteFails e) => (<[path := Truncated]> fs, Some e)
      | None => write_all write_error docs (<[path := d]> fs)
      end
  end.

(** The files once all of [docs] are written, in order. *)
Definition written (docs : list (string * document))
    (fs : gmap string document) : gmap string document :=
  foldl (λ fs pd, <[pd.1 := pd.2]> fs) fs docs.

(** The file a failed dump to [path] leaves. *)
Definition after_failure (fl : write_failure) (path : string)
    (fs : gmap string document) : gmap string document :=
  match fl with
  | OpenFails _ => fs
  | WriteFails _ => <[path := Truncated]> fs
  end.

(** The kind of an entry of the generic log. *)
Definition is_request (x : activity_entry) : bool :=
  match x with RequestEntry _ => true | ResponseEntry _ => false end.

Definition is_response (x : activity_entry) : bool :=
  match x with RequestEntry _ => false | ResponseEntry _ => true end.

(** The tag [websocket_message] gives to a message. *)
Definition direction (m : WebSocketMessage) : string :=
  if from_client m then "client_to_server" else "server_to_client".


(** A file system on which only the named file cannot be opened for
    writing. *)
Definition read_only (path : string) (p : string) : option write_failure :=
  if bool_decide (p = path) then Some (OpenFails "Permission denied")
  else None.

(** A file system that runs out of space while the named file is
    written. *)
Definition disk_full (path : string) (p : string) : option write_failure :=
  if bool_decide (p = path) then Some (WriteFails "No space left on device")
  else None.

Definition writable (p : string) : option write_failure := None.

(** ** Reading sessions and logs *)

Definition entry_flow_id (x : activity_entry) : string :=
  match x with
  | RequestEntry e => rq_flow_id e
  | ResponseEntry e => rs_flow_id e
  end.

Definition entry_url (x : activity_entry) : string :=
  match x with
  | RequestEntry e => rq_url e
  | ResponseEntry e => rs_url e
  end.

(** The ["type"], ["flow_id"] and ["url"] of an entry of the generic log. *)
Definition entry_key (x : activity_entry) : string * string * string :=
  (entry_type x, entry_flow_id x, entry_url x).

(** The same three of the entry that an event is logged as, for the two
    events whose handlers append to the generic log. *)
Definition event_key (e : event) : option (string * string * string) :=
  match e with
  | RequestHeaders f =>
      Some ("request", Flow.id f, url (Flow.request f))
  | Response f =>
      Some ("response", Flow.id f, url (Flow.request f))
  | _ => None
  end.

Definition is_request_event (e : event) : bool :=
  match e with RequestHeaders _ => true | _ => false end.

Definition is_response_event (e : event) : bool :=
  match e with Response _ => true | _ => false end.

(** The levels a sequence of events sets: the option values of the
    [configure] calls whose [updated] holds ["record_level"]. *)
Definition level_settings (evs : list event) : list Z :=
  omap (λ e, match e with
             | Configure updated option_level =>
                 if bool_decide ("record_level" ∈ updated)
                 then Some option_level else None
             | _ => None
             end) evs.

(** The flow identifiers of the request-headers events of a sequence. *)
Definition stamped_ids (evs : list event) : list string :=
  omap (λ e, match e with
             | RequestHeaders f => Some (Flow.id f)
             | _ => None
             end) evs.

(** The number of messages the flows of the [websocket_message] events of a
    sequence hold when their event is handled, counting the events handled
    at level 4 or higher only. *)
Fixpoint buffered (clock : nat -> Z) (isoformat : Z -> string)
    (decode_replace : bytes -> string) (s : recorder) (evs : list event)
  : nat :=
  match evs with
  | [] => 0%nat
  | e :: evs =>
      (match e with
       | WebsocketMessage f =>
           if (4 <=? record_level s)%Z then length (Flow.messages f)
           else 0%nat
       | _ => 0%nat
       end
       + buffered clock isoformat decode_replace
           (handle clock isoformat decode_replace s e) evs)%nat
  end.

(** An entry of the generic log has both body fields or none; a body size
    is at least 1 and a preview has at most 500 characters. *)
Definition body_fields_ok (x : activity_entry) : Prop :=
  match entry_body_size x, entry_body_preview x with
  | Some n, Some p => (1 ≤ n)%nat ∧ (String.length p ≤ 500)%nat
  | None, None => True
  | _, _ => False
  end.

(** An entry of the stream log has one of the two direction tags, and a
    text of at most 1000 characters. *)
Definition stream_entry_ok (x : ws_entry) : Prop :=
  (ws_direction x = "client_to_server" ∨ ws_direction x = "server_to_client")
  ∧ (String.length (ws_message x) ≤ 1000)%nat.

(** The entry [websocket_message] builds for [m], the clock being read for
    the [n]-th time. *)
Definition stream_entry (clock : nat -> Z) (isoformat : Z -> string)
    (decode_replace : bytes -> string) (f : flow) (n : nat)
    (m : WebSocketMessage) : ws_entry :=
  {| ws_timestamp := isoformat (clock n);
     ws_direction := direction m;
     ws_message := prefix 1000 (decode_replace (msg_content m));
     ws_flow_id := Flow.id f;
     ws_url := url (Flow.request f) |}.

(** A text that does not decode, and a flow that carries it. *)
Definition binary_example : flow :=
  {| Flow.id := "f4";
     Flow.request :=
       {| method := "PUT"; url := "http://example.com/blob"; headers := ∅;
          http_version := "HTTP/1.1";
          content := Some [Byte.xff; Byte.xfe];
          text := None |};
     Flow.response :=
       {| status_code := 204;
          resp_headers := ∅;
          resp_http_version := "HTTP/1.1";
          resp_content := Some [];
          resp_text := Some "" |};
     Flow.messages := [] |}.

Definition chat_example : flow :=
  {| Flow.id := "ws2";
     Flow.request :=
       {| method := "GET"; url := "http://example.com/chat"; headers := ∅;
          http_version := "HTTP/1.1"; content := None; text := None |};
     Flow.response :=
       {| status_code := 101;
          resp_headers := ∅;
          resp_http_version := "HTTP/1.1";
          resp_content := None;
          resp_text := None |};
     Flow.messages :=
       [ {| from_client := true; msg_content := [Byte.x68; Byte.x69] |};
         {| from_client := false; msg_content := [Byte.x79; Byte.x6f] |} ] |}.

(** ** Concrete hosts and flows, for the examples *)

(** A clock that advances by one millisecond between two readings. *)
Definition millis_clock (n : nat) : Z := 1000 * Z.of_nat n.

(** A wall clock that is set back by four seconds after its second
    reading. *)
Definition stepped_back_clock (n : nat) : Z :=
  if (n <=? 1)%nat then 5000000 else 1000000.

(** Stand-ins for the two built-ins: the reading in decimal, and the bytes
    read as characters. *)
Definition decimal (t : Z) : string := pretty t.
Definition latin1 (b : bytes) : string := String.string_of_list_byte b.

Definition ok_response : http_response :=
  {| status_code := 200;
     resp_headers := {[ "content-type" := "text/plain" ]};
     resp_http_version := "HTTP/1.1";
     resp_content := Some [Byte.x6f; Byte.x6b];
     resp_text := Some "ok" |}.

Definition get_example : flow :=
  {| Flow.id := "f1";
     Flow.request :=
       {| method := "GET"; url := "http://example.com/"; headers := ∅;
          http_version := "HTTP/1.1"; content := None; text := None |};
     Flow.response := ok_response;
     Flow.messages := [] |}.

Definition post_example : flow :=
  {| Flow.id := "f2";
     Flow.request :=
       {| method := "POST"; url := "http://example.com/form"; headers := ∅;
          http_version := "HTTP/1.1";
          content := Some [Byte.x61; Byte.x3d; Byte.x31];
          text := Some "a=1" |};
     Flow.response := ok_response;
     Flow.messages := [] |}.

Definition socket_example : flow :=
  {| Flow.id := "ws1";
     Flow.request :=
       {| method := "GET"; url := "http://example.com/socket"; headers := ∅;
          http_version := "HTTP/1.1"; content := None; text := None |};
     Flow.response := ok_response;
     Flow.messages := [] |}.

Definition not_found_response : http_response :=
  {| status_code := 404;
     resp_headers := ∅;
     resp_http_version := "HTTP/1.1";
     resp_content := None;
     resp_text := None |}.

Definition get_example_again : flow :=
  {| Flow.id := "f3";
     Flow.request := Flow.request get_example;
     Flow.response := not_found_response;
     Flow.messages := [] |}.

Definition from_the_client (b : bytes) : WebSocketMessage :=
  {| from_client := true; msg_content := b |}.
Definition from_the_server (b : bytes) : WebSocketMessage :=
  {| from_client := false; msg_content := b |}.

(** * Properties *)

(** ** What each handler leaves alone *)

Section Frames.

Variable clock : nat -> Z.
Variable isoformat : Z -> string.
Variable decode_replace : bytes -> string.

Lemma log_message_frame f s m :
  let s' := log_message clock isoformat decode_replace f s m in
  record_level s' = record_level s
  ∧ session_name s' = session_name s
  ∧ network_log s' = network_log s
  ∧ performance_metrics s' = performance_metrics s
  ∧ request_timestamps s' = request_timestamps s.
Proof. repeat split. Qed.

Lemma websocket_message_frame s f :
  let s' := websocket_message clock isoformat decode_replace s f in
  record_level s' = record_level s
  ∧ session_name s' = session_name s
  ∧ network_log s' = network_log s
  ∧ performance_metrics s' = performance_metrics s
  ∧ request_timestamps s' = request_timestamps s.
Proof.
  cbv zeta. unfold websocket_message.
  destruct (4 <=? record_level s); [|done].
  generalize (Flow.messages f) as ms. intros ms. revert s.
  induction ms as [|m ms IH]; intros s; [done|].
  cbn [foldl]. destruct (IH (log_message clock isoformat decode_replace f s m))
    as (-> & -> & -> & -> & ->). done.
Qed.

Lemma websocket_end_frame s f :
  let s' := websocket_end s f in
  record_level s' = record_level s
  ∧ session_name s' = session_name s
  ∧ network_log s' = network_log s
  ∧ performance_metrics s' = performance_metrics s
  ∧ websocket_messages s' = websocket_messages s
  ∧ request_timestamps s' = request_timestamps s.
Proof.
  cbv zeta. unfold websocket_end. by destruct (4 <=? record_level s).
Qed.

Lemma configure_frame s updated l :
  let s' := configure s updated l in
  session_name s' = session_name s
  ∧ network_log s' = network_log s
  ∧ performance_metrics s' = performance_metrics s
  ∧ websocket_messages s' = websocket_messages s
  ∧ request_timestamps s' = request_timestamps s.
Proof. cbv zeta. unfold configure. by case_bool_decide. Qed.

End Frames.

(** ** The request-headers handler *)

(** C10: for every flow and every level, [requestheaders] leaves the
    per-URL performance-record mapping and the stream-message log as they
    were; what it changes is the flow-timestamp table, which gains the stamp
    of the flow, and the generic log, which gains one request entry. *)
Theorem requestheaders_frame clock isoformat (s : recorder) (f : flow) :
  let s' := requestheaders clock isoformat s f in
  performance_metrics s' = performance_metrics s
  ∧ websocket_messages s' = websocket_messages s
  ∧ record_level s' = record_level s
  ∧ request_timestamps s'
    = <[Flow.id f := clock (ticks s)]> (request_timestamps s)
  ∧ ∃ e, network_log s' = (network_log s ++ [RequestEntry e])%list.
Proof. cbv zeta. repeat split. eexists. reflexivity. Qed.

(** ** The response handler *)

Lemma milliseconds_exact (d : Z) : (milliseconds d == d # 1000)%Q.
Proof. unfold milliseconds, total_seconds, Qeq. cbn. lia. Qed.

Lemma milliseconds_nonneg (d : Z) : (0 <= milliseconds d)%Q ↔ 0 ≤ d.
Proof. unfold milliseconds, total_seconds, Qle. cbn. lia. Qed.

(** C4, as the code has it: the response handler always appends one
    response entry and never raises.  When the flow identifier carries a
    stamp, the entry's duration is the clock reading of the response minus
    the stamp, in milliseconds; it is non-negative exactly when the clock
    did not read earlier at the response than at the stamp.  When the flow
    identifier carries no stamp, the duration is [None]. *)
Theorem response_duration clock isoformat (s : recorder) (f : flow) :
  let now := clock (ticks s) in
  ∃ e, last_response (response clock isoformat s f) = Some e
    ∧ match request_timestamps s !! Flow.id f with
      | Some start =>
          rs_duration_ms e = Some (milliseconds (now - start))
          ∧ (milliseconds (now - start) == (now - start) # 1000)%Q
          ∧ ((0 <= milliseconds (now - start))%Q ↔ start ≤ now)
      | None => rs_duration_ms e = None
      end.
Proof.
  cbv zeta. eexists. split.
  - unfold last_response, response. cbn. rewrite last_snoc. reflexivity.
  - cbn. unfold duration_at. cbn.
    destruct (request_timestamps s !! Flow.id f) as [start|]; [|done].
    split; [done|]. split; [apply milliseconds_exact|].
    rewrite milliseconds_nonneg. lia.
Qed.

(** C4, the claim as stated fails: a flow stamped by [requestheaders] whose
    response is read off a clock that was set back in between has a negative
    recorded duration. *)
Lemma response_duration_negative :
  let s := requestheaders stepped_back_clock decimal
             (init stepped_back_clock decimal 3) get_example in
  request_timestamps s !! "f1" = Some 5000000
  ∧ (rs_duration_ms <$>
       last_response (response stepped_back_clock decimal s get_example))
    = Some (Some (milliseconds (-4000000)))
  ∧ (milliseconds (-4000000) < 0)%Q.
Proof. cbv zeta. split; [|split]; reflexivity. Qed.

Lemma response_duration_witness :
  let s := requestheaders millis_clock decimal
             (init millis_clock decimal 3) get_example in
  ∃ e, last_response (response millis_clock decimal s get_example) = Some e
    ∧ rs_duration_ms e = Some (milliseconds (2000 - 1000))
    ∧ (0 <= milliseconds (2000 - 1000))%Q.
Proof.
  cbv zeta.
  destruct (response_duration millis_clock decimal
              (requestheaders millis_clock decimal
                 (init millis_clock decimal 3) get_example) get_example)
    as (e & He & Hd & _ & Hnonneg).
  exists e. split; [exact He|]. split; [exact Hd|].
  apply Hnonneg. vm_compute. discriminate.
Defined.

(** C9: a response handled at level 3 or higher for a flow identifier that
    carries no stamp still writes the performance record of its URL,
    replacing any earlier one, and the record's duration is [None]. *)
Theorem response_unstamped_metrics clock isoformat (s : recorder) (f : flow) :
  3 ≤ record_level s →
  request_timestamps s !! Flow.id f = None →
  ∃ r, performance_metrics (response clock isoformat s f)
       = <[url (Flow.request f) := r]> (performance_metrics s)
    ∧ performance_metrics (response clock isoformat s f)
        !! url (Flow.request f) = Some r
    ∧ pm_response_time_ms r = None
    ∧ pm_status r = status_code (Flow.response f)
    ∧ pm_request_method r = method (Flow.request f).
Proof.
  intros Hlevel Hstamp. unfold response. cbn.
  apply Z.leb_le in Hlevel. rewrite Hlevel. cbn.
  eexists. split; [reflexivity|].
  rewrite lookup_insert_eq. unfold duration_at. cbn. rewrite Hstamp. done.
Qed.

Lemma response_unstamped_metrics_witness :
  ∃ r, performance_metrics
         (response millis_clock decimal (init millis_clock decimal 3)
            get_example)
       = <[ "http://example.com/" := r ]> ∅
    ∧ performance_metrics
        (response millis_clock decimal (init millis_clock decimal 3)
           get_example) !! "http://example.com/" = Some r
    ∧ pm_response_time_ms r = None
    ∧ pm_status r = 200
    ∧ pm_request_method r = "GET".
Proof.
  apply (response_unstamped_metrics millis_clock decimal
           (init millis_clock decimal 3) get_example).
  - cbn. lia.
  - reflexivity.
Defined.

(** ** Sequences of events *)

Section Runs.

Variable clock : nat -> Z.
Variable isoformat : Z -> string.
Variable decode_replace : bytes -> string.

Local Abbreviation step := (handle clock isoformat decode_replace).
Local Abbreviation exec := (run clock isoformat decode_replace).

Lemma run_app s evs1 evs2 : exec s (evs1 ++ evs2) = exec (exec s evs1) evs2.
Proof. apply foldl_app. Qed.

Lemma run_cons s e evs : exec s (e :: evs) = exec (step s e) evs.
Proof. reflexivity. Qed.

(** The performance mapping changes only in the response handler, and
    only at level 3 or higher. *)
Lemma handle_metrics s e :
  performance_metrics (step s e)
  = match e with
    | Response f =>
        if 3 <=? record_level s then
          <[url (Flow.request f) :=
              {| pm_status := status_code (Flow.response f);
                 pm_response_time_ms :=
                   duration_at s (Flow.id f) (clock (ticks s));
                 pm_content_size_bytes :=
                   if truthy (resp_content (Flow.response f))
                   then content_length (resp_content (Flow.response f))
                   else 0%nat;
                 pm_headers_count := size (resp_headers (Flow.response f));
                 pm_request_method := method (Flow.request f);
                 pm_timestamp := isoformat (clock (ticks s)) |}]>
            (performance_metrics s)
        else performance_metrics s
    | _ => performance_metrics s
    end.
Proof.
  destruct e as [updated l|f|f|f|f]; cbn [handle].
  - apply configure_frame.
  - reflexivity.
  - unfold response. cbn. by destruct (3 <=? record_level s).
  - apply websocket_message_frame.
  - apply websocket_end_frame.
Qed.

Lemma handle_metrics_dom s e :
  dom (performance_metrics (step s e))
  ⊆ dom (performance_metrics s) ∪ list_to_set (response_urls [e]).
Proof.
  rewrite handle_metrics.
  destruct e as [updated l|f|f|f|f]; try apply union_subseteq_l.
  destruct (3 <=? record_level s); [|apply union_subseteq_l].
  rewrite dom_insert. cbn. intros u.
  rewrite !elem_of_union, elem_of_singleton. tauto.
Qed.

Lemma response_urls_cons e evs :
  response_urls (e :: evs) = (response_urls [e] ++ response_urls evs)%list.
Proof. unfold response_urls. cbn. by destruct e. Qed.

Lemma run_metrics_dom s evs :
  dom (performance_metrics (exec s evs))
  ⊆ dom (performance_metrics s) ∪ list_to_set (response_urls evs).
Proof.
  revert s. induction evs as [|e evs IH]; intros s; [apply union_subseteq_l|].
  rewrite run_cons, response_urls_cons, list_to_set_app.
  intros u Hu. apply IH in Hu.
  rewrite elem_of_union in Hu. rewrite !elem_of_union.
  destruct Hu as [Hu|Hu]; [|tauto].
  apply handle_metrics_dom in Hu. rewrite elem_of_union in Hu. tauto.
Qed.

(** Events after the last response to a URL leave its record alone. *)
Lemma run_metrics_other s evs u :
  u ∉ response_urls evs →
  performance_metrics (exec s evs) !! u = performance_metrics s !! u.
Proof.
  revert s. induction evs as [|e evs IH]; intros s Hu; [done|].
  rewrite response_urls_cons in Hu. apply not_elem_of_app in Hu as [Hu1 Hu2].
  rewrite run_cons, IH by done. rewrite handle_metrics.
  destruct e as [updated l|f|f|f|f]; try done.
  destruct (3 <=? record_level s); [|done].
  apply lookup_insert_ne. intros Heq. apply Hu1. cbn. rewrite Heq. left.
Qed.

(** Below level 2, a handler appends entries without body fields only. *)
Lemma handle_no_body s e :
  record_level s < 2 →
  ∃ new, network_log (step s e) = (network_log s ++ new)%list
         ∧ Forall no_body new.
Proof.
  intros Hlevel. apply Z.leb_gt in Hlevel.
  destruct e as [updated l|f|f|f|f]; cbn [handle].
  - exists []. rewrite app_nil_r.
    split; [apply configure_frame | constructor].
  - unfold requestheaders. cbn. eexists [_]. split; [reflexivity|].
    repeat constructor; cbn; by rewrite Hlevel.
  - unfold response. cbn. eexists [_].
    split; [by destruct (3 <=? record_level s)|].
    repeat constructor; cbn; by rewrite Hlevel.
  - exists []. rewrite app_nil_r.
    split; [apply websocket_message_frame | constructor].
  - exists []. rewrite app_nil_r.
    split; [apply websocket_end_frame | constructor].
Qed.

End Runs.

(** C7: in a session whose level is below 2 whenever an event is handled,
    every entry appended to the generic log has neither a body size nor a
    body preview. *)
Theorem no_body_below_level_2 clock isoformat decode_replace
    (s : recorder) (evs : list event) :
  Forall (λ l, l < 2) (levels clock isoformat decode_replace s evs) →
  ∃ new,
    network_log (run clock isoformat decode_replace s evs)
    = (network_log s ++ new)%list
    ∧ Forall no_body new.
Proof.
  revert s. induction evs as [|e evs IH]; intros s Hlevels.
  - exists []. by rewrite app_nil_r.
  - cbn [levels] in Hlevels. apply Forall_cons in Hlevels as [Hs Hevs].
    destruct (handle_no_body clock isoformat decode_replace s e Hs)
      as (new1 & Hnew1 & Hbody1).
    destruct (IH _ Hevs) as (new2 & Hnew2 & Hbody2).
    exists (new1 ++ new2)%list. split.
    + rewrite run_cons, Hnew2, Hnew1. by rewrite <- app_assoc.
    + by apply Forall_app.
Qed.

Lemma no_body_below_level_2_witness :
  ∃ new,
    network_log
      (run millis_clock decimal latin1 (init millis_clock decimal 1)
         [RequestHeaders post_example; Response post_example])
    = ([] ++ new)%list
    ∧ Forall no_body new.
Proof.
  apply (no_body_below_level_2 millis_clock decimal latin1
           (init millis_clock decimal 1)
           [RequestHeaders post_example; Response post_example]).
  cbn. repeat constructor; lia.
Defined.

(** Responses to a URL that are handled below level 3 leave the record of
    that URL alone, as do the events that are no response to it. *)
Lemma run_metrics_unwritten clock isoformat decode_replace
    (s : recorder) (evs : list event) (u : string) :
  (∀ pre f post,
     evs = (pre ++ Response f :: post)%list →
     url (Flow.request f) = u →
     record_level (run clock isoformat decode_replace s pre) < 3) →
  performance_metrics (run clock isoformat decode_replace s evs) !! u
  = performance_metrics s !! u.
Proof.
  revert s. induction evs as [|e evs IH]; intros s Hbelow; [done|].
  rewrite run_cons, IH, handle_metrics.
  - destruct e as [updated l|f|f|f|f]; try done.
    destruct (3 <=? record_level s) eqn:Hlevel; [|done].
    apply lookup_insert_ne. intros Hu.
    specialize (Hbelow [] f evs eq_refl Hu). cbn in Hbelow.
    apply Z.leb_le in Hlevel. lia.
  - intros pre f post -> Hu. exact (Hbelow (e :: pre) f post eq_refl Hu).
Qed.

(** C6, as the code has it: at every point of a session the
    performance-record mapping has at most as many keys as there are
    distinct URLs among the responses handled so far; and the record under
    a URL holds the data of the latest response to that URL among those
    handled at level 3 or higher, a response handled below level 3 writing
    nothing. *)
Theorem metrics_last_write_wins clock isoformat decode_replace
    (level : Z) (evs : list event) :
  let s0 := init clock isoformat level in
  let exec := run clock isoformat decode_replace in
  (size (performance_metrics (exec s0 evs))
   ≤ size (list_to_set (response_urls evs) : gset string))%nat
  ∧ ∀ pre f post,
      evs = (pre ++ Response f :: post)%list →
      3 ≤ record_level (exec s0 pre) →
      (∀ post1 f' post2,
         post = (post1 ++ Response f' :: post2)%list →
         url (Flow.request f') = url (Flow.request f) →
         record_level (exec s0 (pre ++ Response f :: post1)%list) < 3) →
      performance_metrics (exec s0 evs) !! url (Flow.request f)
      = Some
          {| pm_status := status_code (Flow.response f);
             pm_response_time_ms :=
               match request_timestamps (exec s0 pre) !! Flow.id f with
               | Some start =>
                   Some (milliseconds (clock (ticks (exec s0 pre)) - start))
               | None => None
               end;
             pm_content_size_bytes :=
               match resp_content (Flow.response f) with
               | Some body => length body
               | None => 0%nat
               end;
             pm_headers_count := size (resp_headers (Flow.response f));
             pm_request_method := method (Flow.request f);
             pm_timestamp := isoformat (clock (ticks (exec s0 pre))) |}.
Proof.
  cbv zeta. split.
  - rewrite <- size_dom. apply subseteq_size.
    etrans; [apply run_metrics_dom|].
    cbn. rewrite dom_empty. apply union_least; [apply empty_subseteq|done].
  - intros pre f post -> Hlevel Hlater.
    rewrite run_app, run_cons, run_metrics_unwritten.
    + rewrite handle_metrics. apply Z.leb_le in Hlevel. rewrite Hlevel.
      rewrite lookup_insert_eq. f_equal. unfold duration_at.
      by destruct (resp_content (Flow.response f)) as [[|b body]|].
    + intros post1 f' post2 -> Hu.
      specialize (Hlater post1 f' post2 eq_refl Hu).
      by rewrite run_app, run_cons in Hlater.
Qed.

(** C6, the claim as stated fails: a response to a URL is recorded at level
    3, the level is set to 1, and a second response to the same URL, with
    another status, is handled: the record of the URL still holds the data
    of the first response, not of the latest. *)
Lemma metrics_keep_earlier_response :
  let s := run millis_clock decimal latin1 (init millis_clock decimal 3)
             [Response get_example; Configure {[ "record_level" ]} 1;
              Response get_example_again] in
  (rs_url <$> last_response s) = Some "http://example.com/"
  ∧ (rs_status_code <$> last_response s) = Some 404
  ∧ (pm_status <$> performance_metrics s !! "http://example.com/") = Some 200.
Proof. cbv zeta. repeat split; vm_compute; reflexivity. Qed.

Lemma metrics_last_write_wins_witness :
  let s := run millis_clock decimal latin1 (init millis_clock decimal 3)
             [Response get_example; RequestHeaders get_example_again;
              Response get_example_again; Configure {[ "record_level" ]} 1;
              Response get_example] in
  (size (performance_metrics s) ≤ 1)%nat
  ∧ (pm_status <$> performance_metrics s !! "http://example.com/") = Some 404.
Proof.
  cbv zeta.
  destruct (metrics_last_write_wins millis_clock decimal latin1 3
              [Response get_example; RequestHeaders get_example_again;
               Response get_example_again; Configure {[ "record_level" ]} 1;
               Response get_example]) as [Hsize Hlast].
  split.
  - exact Hsize.
  - refine (f_equal (fmap pm_status)
              (Hlast [Response get_example; RequestHeaders get_example_again]
                 get_example_again
                 [Configure {[ "record_level" ]} 1; Response get_example]
                 _ _ _)).
    + reflexivity.
    + cbn. lia.
    + intros post1 f' post2 Hpost _.
      destruct post1 as [|e1 [|e2 post1]].
      * discriminate Hpost.
      * injection Hpost as H1 H2 H3. subst e1 f' post2.
        vm_compute. reflexivity.
      * injection Hpost as _ _ Hnil. by destruct post1.
Defined.

(** ** Session persistence *)

Section Done.

Variable clock : nat -> Z.
Variable isoformat : Z -> string.
Variable write_error : string -> option write_failure.

Local Abbreviation finalize := (done clock isoformat write_error).

Local Ltac reduce :=
  cbn [self files fst snd app write_all log tick record_level session_name
       network_log performance_metrics websocket_messages request_timestamps
       logger ticks in_session_dir session_dir].

Local Ltac run_done :=
  unfold done, save_all, try_except, mbind, action_bind, get_self, dump,
    logging, now, pass, mret, action_ret, raise, documents;
  reduce;
  repeat match goal with
    | |- context [in_session_dir (log ?l ?m ?s)] =>
        change (in_session_dir (log l m s)) with (in_session_dir s)
    | |- context [session_summary ?iso (log ?l ?m ?s)] =>
        change (session_summary iso (log l m s)) with (session_summary iso s)
    end.

Local Ltac dump_cases :=
  repeat match goal with
    | |- context [bool_decide ?P] => destruct (bool_decide P); reduce
    end;
  repeat match goal with
    | |- context [write_error ?p] =>
        destruct (write_error p) as [[?|?]|]; reduce; try reflexivity
    end.

(** [done] dumps the documents in order and stops at the first failure. *)
Lemma done_files w :
  files (finalize w).1
  = (write_all write_error
       (documents isoformat (self w) (clock (ticks (self w)))) (files w)).1.
Proof. run_done. dump_cases. Qed.

Lemma done_outcome w :
  (finalize w).2
  = match (write_all write_error
             (documents isoformat (self w) (clock (ticks (self w))))
             (files w)).2 with
    | Some e => Raised e
    | None => Returned tt
    end.
Proof. run_done. dump_cases. Qed.

(** A failure is the last line of the diagnostic log when [done] raises. *)
Lemma done_error_logged w e :
  (finalize w).2 = Raised e →
  last (logger (self (finalize w).1))
  = Some (ERROR, "Error saving recorded data: " +:+ e).
Proof.
  run_done. dump_cases; intros [= <-] || intros [=]; apply last_snoc.
Qed.

(** [done] changes nothing of the recorder but its diagnostic log and the
    number of clock readings. *)
Lemma done_self w :
  let s' := self (finalize w).1 in
  record_level s' = record_level (self w)
  ∧ session_name s' = session_name (self w)
  ∧ network_log s' = network_log (self w)
  ∧ performance_metrics s' = performance_metrics (self w)
  ∧ websocket_messages s' = websocket_messages (self w)
  ∧ request_timestamps s' = request_timestamps (self w).
Proof. cbv zeta. run_done. dump_cases; done. Qed.


(** [done] only adds lines to the diagnostic log, the first of which
    announces the saving. *)
Lemma done_logger w :
  ∃ lines,
    logger (self (finalize w).1)
    = (logger (self w) ++ (INFO, "Saving recorded data...") :: lines)%list.
Proof.
  run_done. dump_cases; rewrite <- ?app_assoc; cbn [app]; by eexists.
Qed.

End Done.

(** ** Writing the documents *)

Lemma write_all_outcome write_error docs fs :
  (write_all write_error docs fs).2
  = exception_of <$> head (omap write_error docs.*1).
Proof.
  revert fs. induction docs as [|[path d] docs IH]; intros fs; [done|].
  cbn. destruct (write_error path) as [[e|e]|]; [done|done|apply IH].
Qed.

(** When no write fails, the files are those of a writable directory. *)
Lemma write_all_writable write_error docs fs :
  (write_all write_error docs fs).2 = None →
  (write_all write_error docs fs).1 = (write_all writable docs fs).1.
Proof.
  revert fs. induction docs as [|[path d] docs IH]; intros fs; [done|].
  cbn. destruct (write_error path) as [[e|e]|]; [done|done|apply IH].
Qed.

(** [done] returns only when no dump failed. *)
Lemma write_all_returned write_error docs fs :
  (write_all write_error docs fs).2 = None
  ↔ Forall (λ p, write_error p = None) docs.*1.
Proof.
  revert fs. induction docs as [|[path d] docs IH]; intros fs; [done|].
  cbn. rewrite Forall_cons.
  destruct (write_error path) as [[e|e]|]; [by split; [|intros []]..|].
  rewrite IH. by split; [|intros []].
Qed.

Lemma write_all_no_failure write_error docs fs :
  Forall (λ p, write_error p = None) docs.*1 →
  (write_all write_error docs fs).1 = written docs fs.
Proof.
  revert fs. induction docs as [|[path d] docs IH]; intros fs Hok; [done|].
  cbn in *. apply Forall_cons in Hok as [-> Hok]. by apply IH.
Qed.

(** The first dump that fails ends the writing: the documents before it
    are written, the file of the failing one is left as the failure leaves
    it, and the documents after it are not written. *)
Lemma write_all_first_failure write_error before p d after fl fs :
  Forall (λ q, write_error q = None) before.*1 →
  write_error p = Some fl →
  write_all write_error (before ++ (p, d) :: after) fs
  = (after_failure fl p (written before fs), Some (exception_of fl)).
Proof.
  revert fs. induction before as [|[q d'] before IH]; intros fs Hok Hfl.
  - cbn. rewrite Hfl. by destruct fl.
  - cbn in *. apply Forall_cons in Hok as [-> Hok]. by apply IH.
Qed.


(** Two files of the session directory with different names are different
    files. *)
Lemma in_session_dir_inj s name1 name2 :
  in_session_dir s name1 = in_session_dir s name2 → name1 = name2.
Proof.
  unfold in_session_dir. intros H.
  apply (inj (String.app (session_dir s))) in H.
  by apply (inj (String.app "/")) in H.
Qed.

Lemma in_session_dir_ne s name1 name2 :
  name1 ≠ name2 → in_session_dir s name1 ≠ in_session_dir s name2.
Proof. intros Hne H. by apply Hne, (in_session_dir_inj s). Qed.

Lemma count_type_request l :
  count_type "request" l = length (filter is_request l).
Proof.
  unfold count_type. induction l as [|[e|e] l IH]; [done| |].
  - rewrite filter_cons_True by done. cbn. by rewrite IH.
  - rewrite filter_cons_False by done. cbn. by rewrite IH.
Qed.

Lemma count_type_response l :
  count_type "response" l = length (filter is_response l).
Proof.
  unfold count_type. induction l as [|[e|e] l IH]; [done| |].
  - rewrite filter_cons_False by done. cbn. by rewrite IH.
  - rewrite filter_cons_True by done. cbn. by rewrite IH.
Qed.

(** C2, as the code has it: [done] dumps its documents in order, and the
    first dump that fails, whichever document it is, ends the call: the
    documents before it are written, the failing file is left as the
    failure leaves it, the documents after it are not written, and the
    failure is recorded as the last line of the diagnostic log and then
    raised to the caller.  [done] returns exactly when no dump failed, all
    the documents being written then. *)
Theorem done_failure_propagates clock isoformat write_error (w : world) :
  let r := done clock isoformat write_error w in
  let docs := documents isoformat (self w) (clock (ticks (self w))) in
  (r.2 = Returned tt ↔ Forall (λ p, write_error p = None) docs.*1)
  ∧ (r.2 = Returned tt → files r.1 = written docs (files w))
  ∧ ∀ before p d after fl,
      docs = (before ++ (p, d) :: after)%list →
      Forall (λ q, write_error q = None) before.*1 →
      write_error p = Some fl →
      r.2 = Raised (exception_of fl)
      ∧ last (logger (self r.1))
        = Some (ERROR, "Error saving recorded data: " +:+ exception_of fl)
      ∧ files r.1 = after_failure fl p (written before (files w)).
Proof.
  cbv zeta. split; [|split].
  - rewrite done_outcome, <- (write_all_returned _ _ (files w)).
    destruct (write_all _ _ _).2; [split; intros [=]|done].
  - intros Hret. rewrite done_outcome in Hret. rewrite done_files.
    apply write_all_no_failure, (write_all_returned _ _ (files w)).
    by destruct (write_all _ _ _).2.
  - intros before p d after fl Hdocs Hbefore Hfl.
    assert ((done clock isoformat write_error w).2 = Raised (exception_of fl))
      as Hraised.
    { rewrite done_outcome, Hdocs.
      by rewrite (write_all_first_failure _ _ _ _ _ fl). }
    split; [exact Hraised|]. split.
    + by apply done_error_logged.
    + rewrite done_files, Hdocs.
      by rewrite (write_all_first_failure _ _ _ _ _ fl).
Qed.

(** C2, the claim as stated fails: with the network-activity file written
    and the performance file not writable, [done] raises. *)
Lemma done_optional_write_raises :
  let s := run millis_clock decimal latin1 (init millis_clock decimal 3)
             [RequestHeaders get_example; Response get_example] in
  let fs := read_only "activity_sessions/0/performance_metrics.json" in
  let r := done millis_clock decimal fs {| self := s; files := ∅ |} in
  fs (in_session_dir s "network_activity.json") = None
  ∧ files r.1 !! in_session_dir s "network_activity.json"
    = Some (NetworkActivity (network_log s))
  ∧ r.2 = Raised "Permission denied"
  ∧ files r.1 !! in_session_dir s "session_summary.json" = None.
Proof. cbv zeta. repeat split; vm_compute; reflexivity. Qed.

Lemma done_failure_propagates_witness :
  let fs := read_only "activity_sessions/0/performance_metrics.json" in
  let w := {| self := run millis_clock decimal latin1
                        (init millis_clock decimal 3)
                        [RequestHeaders get_example; Response get_example];
              files := ∅ |} in
  let r := done millis_clock decimal fs w in
  let network := (in_session_dir (self w) "network_activity.json",
                  NetworkActivity (network_log (self w))) in
  let fl := OpenFails "Permission denied" in
  r.2 = Raised (exception_of fl)
  ∧ last (logger (self r.1))
    = Some (ERROR, "Error saving recorded data: " +:+ exception_of fl)
  ∧ files r.1
    = after_failure fl (in_session_dir (self w) "performance_metrics.json")
        (written [network] (files w)).
Proof.
  cbv zeta.
  refine (proj2 (proj2
            (done_failure_propagates millis_clock decimal
               (read_only "activity_sessions/0/performance_metrics.json")
               {| self := run millis_clock decimal latin1
                            (init millis_clock decimal 3)
                            [RequestHeaders get_example;
                             Response get_example];
                  files := ∅ |}))
            [_] _
            (PerformanceMetrics
               (performance_metrics
                  (run millis_clock decimal latin1
                     (init millis_clock decimal 3)
                     [RequestHeaders get_example; Response get_example])))
            [(_, SessionSummary
                   (session_summary decimal
                      (run millis_clock decimal latin1
                         (init millis_clock decimal 3)
                         [RequestHeaders get_example; Response get_example])
                      3000))]
            (OpenFails "Permission denied") _ _ _).
  - vm_compute. reflexivity.
  - constructor; [vm_compute; reflexivity|constructor].
  - vm_compute. reflexivity.
Defined.

(** C8: the summary a call of [done] writes counts as requests the
    request entries of the generic log and as responses its response
    entries. *)
Theorem summary_counts clock isoformat write_error (w : world) :
  let r := done clock isoformat write_error w in
  r.2 = Returned tt →
  ∃ sm,
    files r.1 !! in_session_dir (self w) "session_summary.json"
    = Some (SessionSummary sm)
    ∧ sm_total_requests sm = length (filter is_request (network_log (self w)))
    ∧ sm_total_responses sm
      = length (filter is_response (network_log (self w))).
Proof.
  cbv zeta. intros Hret. rewrite done_outcome in Hret.
  rewrite done_files, write_all_writable
    by (destruct (write_all _ _ _).2; done).
  eexists. split; [|split].
  - unfold documents.
    destruct (bool_decide (performance_metrics (self w) ≠ ∅)),
      (bool_decide (websocket_messages (self w) ≠ []));
      cbn; apply lookup_insert_eq.
  - cbn. apply count_type_request.
  - cbn. apply count_type_response.
Qed.

Lemma summary_counts_witness :
  let s := run millis_clock decimal latin1 (init millis_clock decimal 3)
             [RequestHeaders get_example; RequestHeaders post_example;
              Response get_example] in
  ∃ sm,
    files (done millis_clock decimal writable {| self := s; files := ∅ |}).1
      !! in_session_dir s "session_summary.json"
    = Some (SessionSummary sm)
    ∧ sm_total_requests sm = 2%nat
    ∧ sm_total_responses sm = 1%nat.
Proof.
  cbv zeta.
  apply (summary_counts millis_clock decimal writable
           {| self := run millis_clock decimal latin1
                        (init millis_clock decimal 3)
                        [RequestHeaders get_example;
                         RequestHeaders post_example;
                         Response get_example];
              files := ∅ |}).
  reflexivity.
Defined.




(** ** The performance file *)

Section MetricsPresent.

Variable clock : nat -> Z.
Variable isoformat : Z -> string.
Variable decode_replace : bytes -> string.

Local Abbreviation step := (handle clock isoformat decode_replace).
Local Abbreviation exec := (run clock isoformat decode_replace).

(** The mapping is non-empty exactly when it was so at the start or a
    response was handled at level 3 or higher. *)
Lemma run_metrics_nonempty s evs :
  performance_metrics (exec s evs) ≠ ∅
  ↔ performance_metrics s ≠ ∅
    ∨ ∃ pre f post,
        evs = (pre ++ Response f :: post)%list
        ∧ 3 ≤ record_level (exec s pre).
Proof.
  revert s. induction evs as [|e evs IH]; intros s.
  - split; [by left|]. intros [H|(pre & f & post & H & _)]; [done|].
    by destruct pre.
  - rewrite run_cons, IH, handle_metrics. split.
    + intros [H|(pre & f & post & -> & Hlevel)].
      * destruct e as [updated l|f|f|f|f]; try by left.
        destruct (3 <=? record_level s) eqn:Hl; [|by left].
        right. exists [], f, evs. split; [done|]. by apply Z.leb_le.
      * right. by exists (e :: pre), f, post.
    + intros [H|(pre & f & post & Heq & Hlevel)].
      * left. destruct e as [updated l|f|f|f|f]; try done.
        destruct (3 <=? record_level s); [|done].
        apply insert_non_empty.
      * destruct pre as [|e' pre]; injection Heq as -> ->.
        -- left. apply Z.leb_le in Hlevel. cbn in Hlevel. rewrite Hlevel.
           apply insert_non_empty.
        -- right. by exists pre, f, post.
Qed.

(** The level in force at the event that follows a prefix of a run. *)
Lemma levels_app s pre e post :
  record_level (exec s pre)
  ∈ levels clock isoformat decode_replace s (pre ++ e :: post).
Proof.
  revert s. induction pre as [|e' pre IH]; intros s; cbn [levels app].
  - left.
  - right. apply IH.
Qed.

Lemma response_urls_nonempty evs :
  response_urls evs ≠ []
  → ∃ pre f post, evs = (pre ++ Response f :: post)%list.
Proof.
  induction evs as [|e evs IH]; [done|]. intros H.
  destruct e as [updated l|f|f|f|f];
    try (destruct (IH H) as (pre & f' & post & ->);
         by eexists (_ :: pre), f', post).
  by exists [], f, evs.
Qed.

Lemma response_urls_app pre f post :
  response_urls (pre ++ Response f :: post) ≠ [].
Proof.
  unfold response_urls. rewrite omap_app. cbn.
  by destruct (omap _ pre).
Qed.

End MetricsPresent.

(** C5, as the code has it: after a call of [done] that returns, in a fresh
    session directory, the performance file is present exactly when some
    response was handled while the level in force was 3 or higher.  For a
    session whose level is the same at every event this is: the level is 3
    or higher and some response was handled. *)
Theorem performance_file_present clock isoformat decode_replace write_error
    (level : Z) (evs : list event) :
  let s0 := init clock isoformat level in
  let s := run clock isoformat decode_replace s0 evs in
  let r := done clock isoformat write_error {| self := s; files := ∅ |} in
  let present :=
    is_Some (files r.1 !! in_session_dir s "performance_metrics.json") in
  r.2 = Returned tt →
  (present
   ↔ ∃ pre f post,
       evs = (pre ++ Response f :: post)%list
       ∧ 3 ≤ record_level (run clock isoformat decode_replace s0 pre))
  ∧ (Forall (λ l, l = level)
       (levels clock isoformat decode_replace s0 evs) →
     present ↔ 3 ≤ level ∧ response_urls evs ≠ []).
Proof.
  cbv zeta. intros Hret. rewrite done_outcome in Hret.
  rewrite done_files, write_all_writable
    by (destruct (write_all _ _ _).2; done).
  clear Hret. cbn [self files].
  set (s0 := init clock isoformat level).
  set (s := run clock isoformat decode_replace s0 evs).
  assert (is_Some
            ((write_all writable
                (documents isoformat s (clock (ticks s))) ∅).1
             !! in_session_dir s "performance_metrics.json")
          ↔ performance_metrics s ≠ ∅) as ->.
  { unfold documents.
    destruct (bool_decide_reflect (performance_metrics s ≠ ∅)) as [Hpm|Hpm],
      (bool_decide (websocket_messages s ≠ [])); cbn;
      repeat (rewrite lookup_insert_ne by (by apply in_session_dir_ne));
      rewrite ?lookup_insert_eq, ?lookup_empty;
      split; try done; by intros [? [=]] || by intros ?%is_Some_None. }
  assert (performance_metrics s ≠ ∅
          ↔ ∃ pre f post,
              evs = (pre ++ Response f :: post)%list
              ∧ 3 ≤ record_level (run clock isoformat decode_replace s0 pre))
    as Hiff.
  { unfold s. rewrite run_metrics_nonempty. split; [|by right].
    by intros [H|H]. }
  split; [exact Hiff|]. intros Hlevels. rewrite Hiff. split.
  - intros (pre & f & post & -> & Hl). split.
    + rewrite Forall_forall in Hlevels.
      by rewrite <- (Hlevels _ (levels_app _ _ _ s0 pre (Response f) post)).
    + apply response_urls_app.
  - intros [Hl (pre & f & post & ->)%response_urls_nonempty].
    exists pre, f, post. split; [done|].
    rewrite Forall_forall in Hlevels.
    by rewrite (Hlevels _ (levels_app _ _ _ s0 pre (Response f) post)).
Qed.

(** C5, the claim as stated fails: the level is 3 when the session starts
    and when it is finalized, and a response was recorded, but the response
    was handled while the level was 1, and no performance file is written. *)
Lemma performance_file_absent_at_level_3 :
  let s0 := init millis_clock decimal 3 in
  let s := run millis_clock decimal latin1 s0
             [Configure {[ "record_level" ]} 1; Response get_example;
              Configure {[ "record_level" ]} 3] in
  let r := done millis_clock decimal writable {| self := s; files := ∅ |} in
  record_level s0 = 3
  ∧ record_level s = 3
  ∧ length (filter is_response (network_log s)) = 1%nat
  ∧ r.2 = Returned tt
  ∧ files r.1 !! in_session_dir s "performance_metrics.json" = None.
Proof. cbv zeta. repeat split; vm_compute; reflexivity. Qed.

Lemma performance_file_present_witness :
  let s0 := init millis_clock decimal 3 in
  let evs := [RequestHeaders get_example; Response get_example] in
  let s := run millis_clock decimal latin1 s0 evs in
  let r := done millis_clock decimal writable {| self := s; files := ∅ |} in
  let present :=
    is_Some (files r.1 !! in_session_dir s "performance_metrics.json") in
  (present
   ↔ ∃ pre f post,
       evs = (pre ++ Response f :: post)%list
       ∧ 3 ≤ record_level (run millis_clock decimal latin1 s0 pre))
  ∧ (Forall (λ l, l = 3) (levels millis_clock decimal latin1 s0 evs) →
     present ↔ 3 ≤ 3 ∧ response_urls evs ≠ []).
Proof.
  cbv zeta.
  apply (performance_file_present millis_clock decimal latin1 writable 3
           [RequestHeaders get_example; Response get_example]).
  reflexivity.
Defined.

(** ** Streaming connections *)

Section Streams.

Variable clock : nat -> Z.
Variable isoformat : Z -> string.
Variable decode_replace : bytes -> string.

(** One call of the handler at level 4 or higher appends one entry per
    message of the flow, in order, tagged by the origin of the message. *)
Lemma websocket_message_entries s f :
  4 ≤ record_level s →
  ∃ new,
    websocket_messages (websocket_message clock isoformat decode_replace s f)
    = (websocket_messages s ++ new)%list
    ∧ ws_direction <$> new = direction <$> Flow.messages f
    ∧ ws_message <$> new
      = (λ m, prefix 1000 (decode_replace (msg_content m)))
          <$> Flow.messages f.
Proof.
  intros Hlevel. apply Z.leb_le in Hlevel.
  unfold websocket_message. rewrite Hlevel. clear Hlevel.
  generalize (Flow.messages f) as ms. intros ms. revert s.
  induction ms as [|m ms IH]; intros s.
  - exists []. by rewrite app_nil_r.
  - cbn [foldl].
    destruct (IH (log_message clock isoformat decode_replace f s m))
      as (new & -> & Hdir & Hmsg).
    eexists (_ :: new). split; [|split].
    + cbn. rewrite <- app_assoc. reflexivity.
    + cbn. by rewrite Hdir.
    + cbn. by rewrite Hmsg.
Qed.

End Streams.

(** C1, on the code: a level-4 session in which one streaming connection
    delivers three messages of the client and then two of the server, the
    handler being called once per message with the flow and its messages so
    far, ends with 15 entries in the stream-message log, every call having
    logged again the messages of the calls before it; the file and the
    summary's count have 15 as well. *)
Theorem stream_scenario_logs_15 clock isoformat decode_replace
    (c1 c2 c3 c4 c5 : bytes) :
  let s := stream clock isoformat decode_replace
             (init clock isoformat 4) socket_example
             [from_the_client c1; from_the_client c2; from_the_client c3;
              from_the_server c4; from_the_server c5] in
  let r := done clock isoformat writable {| self := s; files := ∅ |} in
  let up := "client_to_server" in
  let down := "server_to_client" in
  length (websocket_messages s) = 15%nat
  ∧ ws_direction <$> websocket_messages s
    = [up; up; up; up; up; up; up; up; up; down; up; up; up; down; down]
  ∧ ws_message <$> websocket_messages s
    = prefix 1000 ∘ decode_replace
        <$> [c1; c1; c2; c1; c2; c3; c1; c2; c3; c4; c1; c2; c3; c4; c5]
  ∧ r.2 = Returned tt
  ∧ files r.1 !! in_session_dir s "websocket_messages.json"
    = Some (WebsocketMessages (websocket_messages s))
  ∧ (sm_websocket_messages_count <$>
       match files r.1 !! in_session_dir s "session_summary.json" with
       | Some (SessionSummary sm) => Some sm
       | _ => None
       end) = Some 15%nat.
Proof.
  cbv zeta.
  set (s := stream _ _ _ _ _ _).
  assert (length (websocket_messages s) = 15%nat) as Hlen by reflexivity.
  assert (websocket_messages s ≠ []) as Hne
    by (intros H; by rewrite H in Hlen).
  split; [exact Hlen|]. split; [reflexivity|]. split; [reflexivity|].
  clearbody s.
  rewrite done_outcome, done_files, write_all_outcome.
  cbn [self files]. unfold documents.
  rewrite (bool_decide_eq_true_2 _ Hne).
  destruct (bool_decide (performance_metrics s ≠ ∅)); cbn.
  - split; [done|]. split.
    + rewrite lookup_insert_ne by (by apply in_session_dir_ne).
      apply lookup_insert_eq.
    + rewrite lookup_insert_eq. exact (f_equal Some Hlen).
  - split; [done|]. split.
    + rewrite lookup_insert_ne by (by apply in_session_dir_ne).
      apply lookup_insert_eq.
    + rewrite lookup_insert_eq. exact (f_equal Some Hlen).
Qed.

(** * Further properties of the handlers *)

(** ** Previews *)

Lemma prefix_length (n : nat) (s : string) :
  (String.length (prefix n s) ≤ n)%nat.
Proof.
  unfold prefix. revert s. induction n as [|n IH]; intros [|c s]; cbn;
    try lia.
  specialize (IH s). lia.
Qed.

Lemma body_preview_length (t : option string) :
  (String.length (body_preview t) ≤ 500)%nat.
Proof.
  destruct t as [s|]; [apply prefix_length|].
  change (String.length (body_preview None)) with 13%nat.
  apply (Nat.leb_le 13 500). reflexivity.
Qed.

Lemma truthy_length (c : option bytes) :
  truthy c = true → (1 ≤ content_length c)%nat.
Proof. destruct c as [[|b c]|]; cbn; intros; (done || lia). Qed.

Lemma body_fields_gated (with_body : bool) (c : option bytes)
    (t : option string) :
  (with_body = true → truthy c = true) →
  match (if with_body then Some (content_length c) else None),
        (if with_body then Some (body_preview t) else None) with
  | Some n, Some p => (1 ≤ n)%nat ∧ (String.length p ≤ 500)%nat
  | None, None => True
  | _, _ => False
  end.
Proof.
  destruct with_body; [|done]. intros H.
  split; [by apply truthy_length, H | apply body_preview_length].
Qed.

(** ** The generic log of a session *)

Section GenericLog.

Variable clock : nat -> Z.
Variable isoformat : Z -> string.
Variable decode_replace : bytes -> string.

Local Abbreviation step := (handle clock isoformat decode_replace).
Local Abbreviation exec := (run clock isoformat decode_replace).

(** What one event adds to the generic log. *)
Lemma handle_network_log s e :
  ∃ new,
    network_log (step s e) = (network_log s ++ new)%list
    ∧ entry_key <$> new = option_list (event_key e)
    ∧ Forall body_fields_ok new.
Proof.
  destruct e as [updated l|f|f|f|f]; cbn [handle].
  - exists []. rewrite app_nil_r.
    split; [apply configure_frame|]. by split.
  - unfold requestheaders. cbn. eexists [_]. split; [reflexivity|].
    split; [reflexivity|]. constructor; [|constructor].
    unfold body_fields_ok. cbn. apply body_fields_gated.
    by intros [_ H]%andb_true_iff.
  - unfold response. cbn. eexists [_].
    split; [by destruct (3 <=? record_level s)|].
    split; [reflexivity|]. constructor; [|constructor].
    unfold body_fields_ok. cbn. apply body_fields_gated.
    by intros [_ H]%andb_true_iff.
  - exists []. rewrite app_nil_r.
    split; [apply websocket_message_frame|]. by split.
  - exists []. rewrite app_nil_r.
    split; [apply websocket_end_frame|]. by split.
Qed.

Lemma run_network_log s evs :
  ∃ new,
    network_log (exec s evs) = (network_log s ++ new)%list
    ∧ entry_key <$> new = omap event_key evs
    ∧ Forall body_fields_ok new.
Proof.
  revert s. induction evs as [|e evs IH]; intros s.
  - exists []. by rewrite app_nil_r.
  - destruct (handle_network_log s e) as (new1 & H1 & Hk1 & Hb1).
    destruct (IH (step s e)) as (new2 & H2 & Hk2 & Hb2).
    exists (new1 ++ new2)%list. split; [|split].
    + rewrite run_cons, H2, H1. by rewrite <- app_assoc.
    + rewrite fmap_app, Hk1, Hk2. cbn. by destruct (event_key e).
    + by apply Forall_app.
Qed.

(** Counting the entries of a kind is counting the events of that kind. *)
Lemma count_by_key (new : list activity_entry) (evs : list event) :
  entry_key <$> new = omap event_key evs →
  length (filter is_request new) = length (filter is_request_event evs)
  ∧ length (filter is_response new) = length (filter is_response_event evs).
Proof.
  revert new. induction evs as [|e evs IH]; intros new Hkeys.
  - apply fmap_nil_inv in Hkeys as ->. done.
  - destruct e as [updated l|f|f|f|f]; cbn in Hkeys;
      try (rewrite !(filter_cons _ _ evs); repeat case_decide; try done;
           by apply IH).
    + destruct new as [|x new]; [done|]. injection Hkeys as Hx _ _ Hkeys.
      destruct (IH _ Hkeys) as [IH1 IH2].
      destruct x as [x|x]; [|done].
      rewrite !filter_cons. repeat case_decide; try done.
      cbn [length]. by rewrite IH1, IH2.
    + destruct new as [|x new]; [done|]. injection Hkeys as Hx _ _ Hkeys.
      destruct (IH _ Hkeys) as [IH1 IH2].
      destruct x as [x|x]; [done|].
      rewrite !filter_cons. repeat case_decide; try done.
      cbn [length]. by rewrite IH1, IH2.
Qed.

End GenericLog.

(** X1: whatever the level, a sequence of events appends to the generic log
    one entry per request-headers event and per response event, in the
    order of the events, each with the type, the flow identifier and the
    URL of its event; the other events append nothing. *)
Theorem network_log_arrival_order clock isoformat decode_replace
    (s : recorder) (evs : list event) :
  ∃ new,
    network_log (run clock isoformat decode_replace s evs)
    = (network_log s ++ new)%list
    ∧ entry_key <$> new = omap event_key evs.
Proof.
  destruct (run_network_log clock isoformat decode_replace s evs)
    as (new & H & Hkeys & _).
  by exists new.
Qed.

(** X2: every entry of the generic log of a session has either both body
    fields or none of them, and when it has them the body size is at least
    1 and the preview has at most 500 characters. *)
Theorem body_fields_invariant clock isoformat decode_replace
    (level : Z) (evs : list event) :
  Forall body_fields_ok
    (network_log
       (run clock isoformat decode_replace (init clock isoformat level) evs)).
Proof.
  destruct (run_network_log clock isoformat decode_replace
              (init clock isoformat level) evs) as (new & -> & _ & Hok).
  exact Hok.
Qed.

(** X3: when [done] returns at the end of a session, the summary's
    [total_requests] is the number of request-headers events of the session
    and its [total_responses] the number of response events. *)
Theorem summary_counts_events clock isoformat decode_replace write_error
    (level : Z) (evs : list event) (fs : gmap string document) :
  let s := run clock isoformat decode_replace (init clock isoformat level)
             evs in
  let r := done clock isoformat write_error {| self := s; files := fs |} in
  r.2 = Returned tt →
  ∃ sm,
    files r.1 !! in_session_dir s "session_summary.json"
    = Some (SessionSummary sm)
    ∧ sm_total_requests sm = length (filter is_request_event evs)
    ∧ sm_total_responses sm = length (filter is_response_event evs).
Proof.
  cbv zeta. intros Hret. rewrite done_outcome in Hret.
  rewrite done_files, write_all_writable
    by (destruct (write_all _ _ _).2; done).
  cbn [self files]. clear Hret.
  destruct (run_network_log clock isoformat decode_replace
              (init clock isoformat level) evs) as (new & Hlog & Hkeys & _).
  cbn in Hlog. apply count_by_key in Hkeys as [Hreq Hresp].
  eexists. split; [|split].
  - unfold documents.
    destruct (bool_decide (performance_metrics _ ≠ ∅)),
      (bool_decide (websocket_messages _ ≠ []));
      cbn; apply lookup_insert_eq.
  - cbn. by rewrite count_type_request, Hlog.
  - cbn. by rewrite count_type_response, Hlog.
Qed.

Lemma summary_counts_events_witness :
  let evs := [RequestHeaders get_example; RequestHeaders binary_example;
              WebsocketMessage chat_example; Response get_example] in
  let s := run millis_clock decimal latin1 (init millis_clock decimal 2) evs in
  let r := done millis_clock decimal writable {| self := s; files := ∅ |} in
  ∃ sm,
    files r.1 !! in_session_dir s "session_summary.json"
    = Some (SessionSummary sm)
    ∧ sm_total_requests sm = 2%nat
    ∧ sm_total_responses sm = 1%nat.
Proof.
  cbv zeta.
  apply (summary_counts_events millis_clock decimal latin1 writable 2
           [RequestHeaders get_example; RequestHeaders binary_example;
            WebsocketMessage chat_example; Response get_example] ∅).
  reflexivity.
Defined.

(** ** The stream log of a session *)

Lemma direction_tag (m : WebSocketMessage) :
  direction m = "client_to_server" ∨ direction m = "server_to_client".
Proof. unfold direction. destruct (from_client m); [by left|by right]. Qed.

Section StreamLog.

Variable clock : nat -> Z.
Variable isoformat : Z -> string.
Variable decode_replace : bytes -> string.

Local Abbreviation step := (handle clock isoformat decode_replace).
Local Abbreviation exec := (run clock isoformat decode_replace).
Local Abbreviation entry := (stream_entry clock isoformat decode_replace).

(** The loop of [websocket_message]: one entry per message, the clock
    being read once for each. *)
Lemma foldl_log_message f s ms :
  websocket_messages
    (foldl (log_message clock isoformat decode_replace f) s ms)
  = (websocket_messages s
     ++ imap (λ i, entry f (ticks s + i)%nat) ms)%list.
Proof.
  revert s. induction ms as [|m ms IH]; intros s.
  - cbn. by rewrite app_nil_r.
  - cbn [foldl]. rewrite IH, imap_cons. cbn [log_message]. cbn.
    rewrite <- app_assoc. cbn. rewrite Nat.add_0_r.
    do 2 f_equal. apply imap_ext. intros i x _. cbn.
    by rewrite Nat.add_succ_r.
Qed.

(** What one event adds to the stream log. *)
Lemma handle_stream_log s e :
  websocket_messages (step s e)
  = (websocket_messages s
     ++ match e with
        | WebsocketMessage f =>
            if 4 <=? record_level s
            then imap (λ i, entry f (ticks s + i)%nat) (Flow.messages f)
            else []
        | _ => []
        end)%list.
Proof.
  destruct e as [updated l|f|f|f|f]; cbn [handle];
    rewrite ?app_nil_r.
  - apply configure_frame.
  - reflexivity.
  - unfold response. cbn. by destruct (3 <=? record_level s).
  - unfold websocket_message. destruct (4 <=? record_level s).
    + apply foldl_log_message.
    + by rewrite app_nil_r.
  - apply websocket_end_frame.
Qed.

Lemma imap_stream_entry_ok f n ms :
  Forall stream_entry_ok (imap (λ i, entry f (n + i)%nat) ms).
Proof.
  apply Forall_forall. intros x Hx.
  apply list_elem_of_lookup in Hx as [i Hx].
  rewrite list_lookup_imap in Hx.
  destruct (ms !! i) as [m|]; [|done]. injection Hx as <-.
  split; [apply direction_tag | apply prefix_length].
Qed.

Lemma run_stream_log_ok s evs :
  Forall stream_entry_ok (websocket_messages s) →
  Forall stream_entry_ok (websocket_messages (exec s evs)).
Proof.
  revert s. induction evs as [|e evs IH]; intros s Hs; [done|].
  rewrite run_cons. apply IH. rewrite handle_stream_log.
  apply Forall_app. split; [done|].
  destruct e as [updated l|f|f|f|f]; try constructor.
  destruct (4 <=? record_level s); [|constructor].
  apply imap_stream_entry_ok.
Qed.

(** The stream log is non-empty exactly when it was so at the start or a
    call of [websocket_message] at level 4 or higher found a message. *)
Lemma run_stream_nonempty s evs :
  websocket_messages (exec s evs) ≠ []
  ↔ websocket_messages s ≠ []
    ∨ ∃ pre f post,
        evs = (pre ++ WebsocketMessage f :: post)%list
        ∧ 4 ≤ record_level (exec s pre)
        ∧ Flow.messages f ≠ [].
Proof.
  revert s. induction evs as [|e evs IH]; intros s.
  - split; [by left|]. intros [H|(pre & f & post & H & _)]; [done|].
    by destruct pre.
  - rewrite run_cons, IH, handle_stream_log. split.
    + intros [H|(pre & f & post & -> & Hlevel)].
      * destruct (websocket_messages s) as [|x l] eqn:Hws; [|by left].
        right. destruct e as [updated l|f|f|f|f]; try done.
        destruct (4 <=? record_level s) eqn:Hl; [|done].
        exists [], f, evs. split; [done|]. split; [by apply Z.leb_le|].
        intros Hm. by rewrite Hm in H.
      * right. by exists (e :: pre), f, post.
    + intros [H|(pre & f & post & Heq & Hlevel & Hm)].
      * left. by destruct (websocket_messages s).
      * destruct pre as [|e' pre]; injection Heq as -> ->.
        -- left. apply Z.leb_le in Hlevel. cbn in Hlevel. rewrite Hlevel.
           destruct (Flow.messages f); [done|].
           rewrite imap_cons. by destruct (websocket_messages s).
        -- right. by exists pre, f, post.
Qed.

End StreamLog.

(** X4: a call of [websocket_message] at level 4 or higher appends to the
    stream log one entry for every message the flow holds, in the order of
    the messages: each carries the flow's identifier and URL, the direction
    of its message, the first 1000 characters of the decoded content, and
    its own clock reading. *)
Theorem websocket_message_logs_buffer clock isoformat decode_replace
    (s : recorder) (f : flow) :
  4 ≤ record_level s →
  websocket_messages (websocket_message clock isoformat decode_replace s f)
  = (websocket_messages s
     ++ imap (λ i, stream_entry clock isoformat decode_replace f
                     (ticks s + i)%nat)
          (Flow.messages f))%list.
Proof.
  intros Hlevel. apply Z.leb_le in Hlevel.
  unfold websocket_message. rewrite Hlevel. apply foldl_log_message.
Qed.

Lemma websocket_message_logs_buffer_witness :
  ws_direction <$>
    websocket_messages
      (websocket_message millis_clock decimal latin1
         (init millis_clock decimal 4) chat_example)
  = ["client_to_server"; "server_to_client"]
  ∧ ws_message <$>
      websocket_messages
        (websocket_message millis_clock decimal latin1
           (init millis_clock decimal 4) chat_example)
    = ["hi"; "yo"].
Proof.
  rewrite (websocket_message_logs_buffer millis_clock decimal latin1
             (init millis_clock decimal 4) chat_example).
  - split; reflexivity.
  - cbn. lia.
Defined.

(** X5: every entry of the stream log of a session is tagged
    ["client_to_server"] or ["server_to_client"] and has a text of at most
    1000 characters. *)
Theorem stream_log_invariant clock isoformat decode_replace
    (level : Z) (evs : list event) :
  Forall stream_entry_ok
    (websocket_messages
       (run clock isoformat decode_replace (init clock isoformat level) evs)).
Proof. apply run_stream_log_ok. constructor. Qed.

(** ** Levels *)

Section Levels.

Variable clock : nat -> Z.
Variable isoformat : Z -> string.
Variable decode_replace : bytes -> string.

Local Abbreviation step := (handle clock isoformat decode_replace).
Local Abbreviation exec := (run clock isoformat decode_replace).

(** Only [configure] with ["record_level"] among the updated options
    changes the level. *)
Lemma handle_level s e :
  record_level (step s e) = default (record_level s) (last (level_settings [e])).
Proof.
  destruct e as [updated l|f|f|f|f]; cbn [handle].
  - unfold configure, level_settings. cbn.
    by destruct (bool_decide ("record_level" ∈ updated)).
  - reflexivity.
  - unfold response. cbn. by destruct (3 <=? record_level s).
  - apply websocket_message_frame.
  - apply websocket_end_frame.
Qed.

Lemma level_settings_cons e evs :
  level_settings (e :: evs) = (level_settings [e] ++ level_settings evs)%list.
Proof.
  unfold level_settings. cbn.
  by destruct e as [updated l|f|f|f|f];
    try destruct (bool_decide ("record_level" ∈ updated)).
Qed.

(** At level 3 or higher every response leaves a record under its URL. *)
Lemma run_metrics_dom_level_3 s evs :
  Forall (λ l, 3 ≤ l) (levels clock isoformat decode_replace s evs) →
  dom (performance_metrics (exec s evs))
  = dom (performance_metrics s) ∪ list_to_set (response_urls evs).
Proof.
  revert s. induction evs as [|e evs IH]; intros s Hlevels.
  - cbn. by rewrite union_empty_r_L.
  - cbn [levels] in Hlevels. apply Forall_cons in Hlevels as [Hs Hevs].
    rewrite run_cons, IH, handle_metrics, response_urls_cons,
      list_to_set_app_L by done.
    destruct e as [updated l|f|f|f|f]; cbn;
      rewrite ?union_empty_l_L; try done.
    apply Z.leb_le in Hs. rewrite Hs, dom_insert_L.
    apply set_eq. intros x.
    rewrite !elem_of_union, !elem_of_singleton, elem_of_empty. tauto.
Qed.

End Levels.

(** X6: the level of a session is the one set by the last [configure] call
    whose updated options held ["record_level"], and the level the session
    started with when there was no such call: no other handler changes the
    level. *)
Theorem level_is_last_setting clock isoformat decode_replace
    (s : recorder) (evs : list event) :
  record_level (run clock isoformat decode_replace s evs)
  = default (record_level s) (last (level_settings evs)).
Proof.
  revert s. induction evs as [|e evs IH]; intros s; [done|].
  rewrite run_cons, IH, (level_settings_cons e evs), last_app, handle_level.
  by destruct (last (level_settings evs)).
Qed.

(** X7: in a session whose level is below 4 whenever an event is handled,
    the stream log stays as it was, whatever messages the flows hold. *)
Theorem no_stream_entries_below_level_4 clock isoformat decode_replace
    (s : recorder) (evs : list event) :
  Forall (λ l, l < 4) (levels clock isoformat decode_replace s evs) →
  websocket_messages (run clock isoformat decode_replace s evs)
  = websocket_messages s.
Proof.
  revert s. induction evs as [|e evs IH]; intros s Hlevels; [done|].
  cbn [levels] in Hlevels. apply Forall_cons in Hlevels as [Hs Hevs].
  rewrite run_cons, IH, handle_stream_log by done.
  destruct e as [updated l|f|f|f|f]; rewrite ?app_nil_r; try done.
  apply Z.leb_gt in Hs. by rewrite Hs, app_nil_r.
Qed.

Lemma no_stream_entries_below_level_4_witness :
  websocket_messages
    (run millis_clock decimal latin1 (init millis_clock decimal 3)
       [WebsocketMessage chat_example; WebsocketEnd chat_example])
  = [].
Proof.
  apply (no_stream_entries_below_level_4 millis_clock decimal latin1
           (init millis_clock decimal 3)
           [WebsocketMessage chat_example; WebsocketEnd chat_example]).
  cbn. repeat constructor; lia.
Defined.

(** X8: in a session whose level is below 3 whenever an event is handled,
    the performance-record mapping stays as it was. *)
Theorem no_metrics_below_level_3 clock isoformat decode_replace
    (s : recorder) (evs : list event) :
  Forall (λ l, l < 3) (levels clock isoformat decode_replace s evs) →
  performance_metrics (run clock isoformat decode_replace s evs)
  = performance_metrics s.
Proof.
  revert s. induction evs as [|e evs IH]; intros s Hlevels; [done|].
  cbn [levels] in Hlevels. apply Forall_cons in Hlevels as [Hs Hevs].
  rewrite run_cons, IH, handle_metrics by done.
  destruct e as [updated l|f|f|f|f]; try done.
  apply Z.leb_gt in Hs. by rewrite Hs.
Qed.

Lemma no_metrics_below_level_3_witness :
  performance_metrics
    (run millis_clock decimal latin1 (init millis_clock decimal 2)
       [RequestHeaders get_example; Response get_example])
  = ∅.
Proof.
  apply (no_metrics_below_level_3 millis_clock decimal latin1
           (init millis_clock decimal 2)
           [RequestHeaders get_example; Response get_example]).
  cbn. repeat constructor; lia.
Defined.

(** X9: in a session whose level is 3 or higher whenever an event is
    handled, the keys of the performance-record mapping are exactly the
    URLs of the responses handled, so that the summary's
    [performance_metrics_count] is the number of distinct URLs among
    them. *)
Theorem metrics_keys_at_level_3 clock isoformat decode_replace
    (level : Z) (evs : list event) :
  let s0 := init clock isoformat level in
  let s := run clock isoformat decode_replace s0 evs in
  Forall (λ l, 3 ≤ l) (levels clock isoformat decode_replace s0 evs) →
  dom (performance_metrics s) = list_to_set (response_urls evs)
  ∧ sm_performance_metrics_count (session_summary isoformat s (clock (ticks s)))
    = size (list_to_set (response_urls evs) : gset string).
Proof.
  cbv zeta. intros Hlevels.
  pose proof (run_metrics_dom_level_3 clock isoformat decode_replace
                (init clock isoformat level) evs Hlevels) as Hdom.
  change (performance_metrics (init clock isoformat level))
    with (∅ : gmap string performance_record) in Hdom.
  rewrite dom_empty_L, union_empty_l_L in Hdom.
  split; [exact Hdom|].
  cbn [session_summary sm_performance_metrics_count].
  by rewrite <- size_dom, Hdom.
Qed.

Lemma metrics_keys_at_level_3_witness :
  let s := run millis_clock decimal latin1 (init millis_clock decimal 3)
             [Response get_example; Response post_example;
              Response get_example_again] in
  dom (performance_metrics s)
  = list_to_set ["http://example.com/"; "http://example.com/form";
                 "http://example.com/"]
  ∧ sm_performance_metrics_count
      (session_summary decimal s (millis_clock (ticks s)))
    = size (list_to_set ["http://example.com/"; "http://example.com/form";
                         "http://example.com/"] : gset string).
Proof.
  cbv zeta.
  apply (metrics_keys_at_level_3 millis_clock decimal latin1 3
           [Response get_example; Response post_example;
            Response get_example_again]).
  cbn. repeat constructor; lia.
Defined.

(** ** The flow-timestamp table *)

Section Stamps.

Variable clock : nat -> Z.
Variable isoformat : Z -> string.
Variable decode_replace : bytes -> string.

Local Abbreviation step := (handle clock isoformat decode_replace).
Local Abbreviation exec := (run clock isoformat decode_replace).

(** Only the request-headers handler writes to the table; no handler
    removes a stamp. *)
Lemma handle_timestamps s e :
  request_timestamps (step s e)
  = match e with
    | RequestHeaders f =>
        <[Flow.id f := clock (ticks s)]> (request_timestamps s)
    | _ => request_timestamps s
    end.
Proof.
  destruct e as [updated l|f|f|f|f]; cbn [handle].
  - apply configure_frame.
  - reflexivity.
  - unfold response. cbn. by destruct (3 <=? record_level s).
  - apply websocket_message_frame.
  - apply websocket_end_frame.
Qed.

Lemma stamped_ids_cons e evs :
  stamped_ids (e :: evs) = (stamped_ids [e] ++ stamped_ids evs)%list.
Proof. unfold stamped_ids. cbn. by destruct e. Qed.

Lemma run_timestamps_other s evs fid :
  fid ∉ stamped_ids evs →
  request_timestamps (exec s evs) !! fid = request_timestamps s !! fid.
Proof.
  revert s. induction evs as [|e evs IH]; intros s Hfid; [done|].
  rewrite stamped_ids_cons in Hfid.
  apply not_elem_of_app in Hfid as [Hfid1 Hfid2].
  rewrite run_cons, IH, handle_timestamps by done.
  destruct e as [updated l|f|f|f|f]; try done.
  apply lookup_insert_ne. intros Heq. apply Hfid1. cbn. rewrite Heq. left.
Qed.

End Stamps.

(** X10: the stamp of a flow identifier is the clock reading of the latest
    request-headers event for that identifier: an earlier stamp is
    overwritten, and no later event of another kind or for another flow
    changes or removes it. *)
Theorem stamp_is_latest_reading clock isoformat decode_replace
    (s : recorder) (pre post : list event) (f : flow) :
  let exec := run clock isoformat decode_replace in
  Flow.id f ∉ stamped_ids post →
  request_timestamps (exec s (pre ++ RequestHeaders f :: post)%list)
    !! Flow.id f
  = Some (clock (ticks (exec s pre))).
Proof.
  cbv zeta. intros Hpost.
  rewrite run_app, run_cons, run_timestamps_other by done.
  rewrite handle_timestamps. apply lookup_insert_eq.
Qed.

Lemma stamp_is_latest_reading_witness :
  request_timestamps
    (run millis_clock decimal latin1 (init millis_clock decimal 3)
       ([RequestHeaders get_example]
        ++ RequestHeaders get_example
           :: [RequestHeaders post_example; Response get_example])%list)
    !! "f1"
  = Some 2000.
Proof.
  apply (stamp_is_latest_reading millis_clock decimal latin1
           (init millis_clock decimal 3)
           [RequestHeaders get_example]
           [RequestHeaders post_example; Response get_example]
           get_example).
  cbn. intros H. apply list_elem_of_singleton in H. discriminate H.
Defined.

(** X11: the flow identifiers that carry a stamp are those the table held
    at the start together with those of the request-headers events
    handled since: a response does not evict the stamp it reads. *)
Theorem stamped_flows clock isoformat decode_replace
    (s : recorder) (evs : list event) :
  dom (request_timestamps (run clock isoformat decode_replace s evs))
  = dom (request_timestamps s) ∪ list_to_set (stamped_ids evs).
Proof.
  revert s. induction evs as [|e evs IH]; intros s.
  - cbn. by rewrite union_empty_r_L.
  - rewrite run_cons, IH, handle_timestamps, stamped_ids_cons,
      list_to_set_app_L.
    destruct e as [updated l|f|f|f|f]; cbn;
      rewrite ?union_empty_l_L; try done.
    rewrite dom_insert_L. apply set_eq. intros x.
    rewrite !elem_of_union, !elem_of_singleton, elem_of_empty. tauto.
Qed.

(** X12: when the request headers of a flow are handled, then events that
    do not stamp that flow again, and then a response with the same flow
    identifier, the entry logged for the response has as its duration the
    clock reading of the response minus the reading of the request, in
    milliseconds. *)
Theorem exchange_duration clock isoformat decode_replace
    (s : recorder) (pre mid : list event) (f f' : flow) :
  let exec := run clock isoformat decode_replace in
  let s1 := exec s pre in
  let s2 := exec s (pre ++ RequestHeaders f :: mid)%list in
  Flow.id f' = Flow.id f →
  Flow.id f ∉ stamped_ids mid →
  ∃ e, last_response (response clock isoformat s2 f') = Some e
    ∧ rs_flow_id e = Flow.id f
    ∧ rs_duration_ms e
      = Some (milliseconds (clock (ticks s2) - clock (ticks s1))).
Proof.
  cbv zeta. intros Hid Hmid.
  pose proof (run_app clock isoformat decode_replace s pre
                (RequestHeaders f :: mid)) as Happ.
  assert (request_timestamps
            (run clock isoformat decode_replace s
               (pre ++ RequestHeaders f :: mid)) !! Flow.id f'
          = Some (clock (ticks (run clock isoformat decode_replace s pre))))
    as Hstamp.
  { rewrite Hid, Happ, run_cons, run_timestamps_other by done.
    rewrite handle_timestamps. apply lookup_insert_eq. }
  eexists. split; [|split].
  - unfold last_response, response. cbn. rewrite last_snoc. reflexivity.
  - cbn. exact Hid.
  - cbn. unfold duration_at. cbn. by rewrite Hstamp.
Qed.

Lemma exchange_duration_witness :
  ∃ e, last_response
         (response millis_clock decimal
            (run millis_clock decimal latin1 (init millis_clock decimal 1)
               ([] ++ RequestHeaders get_example
                      :: [RequestHeaders post_example;
                          Response post_example])%list)
            get_example)
       = Some e
    ∧ rs_flow_id e = "f1"
    ∧ rs_duration_ms e = Some (milliseconds (4000 - 1000)).
Proof.
  apply (exchange_duration millis_clock decimal latin1
           (init millis_clock decimal 1) []
           [RequestHeaders post_example; Response post_example]
           get_example get_example).
  - reflexivity.
  - cbn. intros H. apply list_elem_of_singleton in H. discriminate H.
Defined.

(** ** The files of a session *)

(** The files after all the documents were written to a fresh directory. *)
Lemma written_files isoformat (s : recorder) (t : Z) :
  let fs := (write_all writable (documents isoformat s t) ∅).1 in
  fs !! in_session_dir s "network_activity.json"
  = Some (NetworkActivity (network_log s))
  ∧ fs !! in_session_dir s "performance_metrics.json"
    = (if bool_decide (performance_metrics s ≠ ∅)
       then Some (PerformanceMetrics (performance_metrics s)) else None)
  ∧ fs !! in_session_dir s "websocket_messages.json"
    = (if bool_decide (websocket_messages s ≠ [])
       then Some (WebsocketMessages (websocket_messages s)) else None)
  ∧ fs !! in_session_dir s "session_summary.json"
    = Some (SessionSummary (session_summary isoformat s t)).
Proof.
  cbv zeta. unfold documents.
  destruct (bool_decide (performance_metrics s ≠ ∅)),
    (bool_decide (websocket_messages s ≠ [])); cbn;
    repeat split;
    repeat (rewrite lookup_insert_ne by (by apply in_session_dir_ne));
    rewrite ?lookup_insert_eq, ?lookup_empty; done.
Qed.

(** When the writing fails on documents of which the last has a file of
    its own, that file is as it was, or it was opened and left truncated. *)
Lemma write_all_failed write_error (docs : list (string * document))
    (last_doc : string * document) fs e :
  last_doc.1 ∉ docs.*1 →
  (write_all write_error (docs ++ [last_doc]) fs).2 = Some e →
  (write_all write_error (docs ++ [last_doc]) fs).1 !! last_doc.1
  = fs !! last_doc.1
  ∨ (write_all write_error (docs ++ [last_doc]) fs).1 !! last_doc.1
    = Some Truncated.
Proof.
  revert fs. induction docs as [|[p d] docs IH]; intros fs Hnot Hfail.
  - destruct last_doc as [p d]. cbn in *.
    destruct (write_error p) as [[e'|e']|]; cbn in *; [by left| |done].
    right. apply lookup_insert_eq.
  - cbn in *. apply not_elem_of_cons in Hnot as [Hne Hnot].
    destruct (write_error p) as [[e'|e']|]; cbn in *; [by left| |].
    + left. by apply lookup_insert_ne.
    + destruct (IH (<[p:=d]> fs) Hnot Hfail) as [H|H]; [|by right].
      left. rewrite H. by apply lookup_insert_ne.
Qed.

(** X13: after a call of [done] that returns, in a fresh session
    directory, the stream file is present exactly when some call of
    [websocket_message] at level 4 or higher found a message on its
    flow. *)
Theorem stream_file_present clock isoformat decode_replace write_error
    (level : Z) (evs : list event) :
  let s0 := init clock isoformat level in
  let s := run clock isoformat decode_replace s0 evs in
  let r := done clock isoformat write_error {| self := s; files := ∅ |} in
  r.2 = Returned tt →
  is_Some (files r.1 !! in_session_dir s "websocket_messages.json")
  ↔ ∃ pre f post,
      evs = (pre ++ WebsocketMessage f :: post)%list
      ∧ 4 ≤ record_level (run clock isoformat decode_replace s0 pre)
      ∧ Flow.messages f ≠ [].
Proof.
  cbv zeta. intros Hret. rewrite done_outcome in Hret.
  rewrite done_files, write_all_writable
    by (destruct (write_all _ _ _).2; done).
  clear Hret. cbn [self files].
  set (s := run clock isoformat decode_replace (init clock isoformat level)
              evs).
  destruct (written_files isoformat s (clock (ticks s)))
    as (_ & _ & -> & _).
  transitivity (websocket_messages s ≠ []).
  - destruct (bool_decide_reflect (websocket_messages s ≠ [])) as [H|H].
    + split; [done|]. by eexists.
    + split; [by intros ?%is_Some_None|done].
  - unfold s. rewrite run_stream_nonempty. split; [|by right].
    by intros [H|H].
Qed.

Lemma stream_file_present_witness :
  let s0 := init millis_clock decimal 4 in
  let evs := [WebsocketMessage socket_example; WebsocketMessage chat_example] in
  let s := run millis_clock decimal latin1 s0 evs in
  let r := done millis_clock decimal writable {| self := s; files := ∅ |} in
  is_Some (files r.1 !! in_session_dir s "websocket_messages.json")
  ↔ ∃ pre f post,
      evs = (pre ++ WebsocketMessage f :: post)%list
      ∧ 4 ≤ record_level (run millis_clock decimal latin1 s0 pre)
      ∧ Flow.messages f ≠ [].
Proof.
  cbv zeta.
  apply (stream_file_present millis_clock decimal latin1 writable 4
           [WebsocketMessage socket_example; WebsocketMessage chat_example]).
  reflexivity.
Defined.

(** X14: [done] does not roll back, and a call that raises leaves no
    summary of its own: the summary file is then as it was before the call,
    or it was opened and is left truncated; and the network-activity file
    nevertheless holds the generic log if its own dump did not fail. *)
Theorem done_raises_without_summary clock isoformat write_error
    (w : world) (e : string) :
  let r := done clock isoformat write_error w in
  let s := self w in
  let summary_file := in_session_dir s "session_summary.json" in
  r.2 = Raised e →
  (files r.1 !! summary_file = files w !! summary_file
   ∨ files r.1 !! summary_file = Some Truncated)
  ∧ (write_error (in_session_dir s "network_activity.json") = None →
     files r.1 !! in_session_dir s "network_activity.json"
     = Some (NetworkActivity (network_log s))).
Proof.
  cbv zeta. intros Hraised. rewrite done_outcome in Hraised.
  rewrite done_files.
  destruct (write_all write_error _ (files w)).2 as [e'|] eqn:Hfail; [|done].
  clear Hraised. revert Hfail. unfold documents.
  set (net := in_session_dir (self w) "network_activity.json").
  set (sum := (in_session_dir (self w) "session_summary.json", _)).
  intros Hfail. split.
  - rewrite !app_assoc in Hfail |- *.
    apply (write_all_failed write_error _ sum _ e'); [|done].
    destruct (bool_decide (performance_metrics (self w) ≠ ∅)),
      (bool_decide (websocket_messages (self w) ≠ [])); cbn;
      rewrite ?not_elem_of_cons; repeat split;
      try apply not_elem_of_nil; by apply in_session_dir_ne.
  - intros Hnet. clear Hfail. subst net sum. cbn [app write_all].
    rewrite Hnet.
    destruct (bool_decide (performance_metrics (self w) ≠ ∅)),
      (bool_decide (websocket_messages (self w) ≠ [])); cbn;
      repeat match goal with
        | |- context [write_error ?p] =>
            destruct (write_error p) as [[?|?]|]; cbn
        end;
      repeat (rewrite lookup_insert_ne by (by apply in_session_dir_ne));
      apply lookup_insert_eq.
Qed.

Lemma done_raises_without_summary_witness :
  let fs := disk_full "activity_sessions/0/session_summary.json" in
  let w := {| self := run millis_clock decimal latin1
                        (init millis_clock decimal 4)
                        [Response get_example; WebsocketMessage chat_example];
              files := ∅ |} in
  let r := done millis_clock decimal fs w in
  (files r.1 !! in_session_dir (self w) "session_summary.json"
   = files w !! in_session_dir (self w) "session_summary.json"
   ∨ files r.1 !! in_session_dir (self w) "session_summary.json"
     = Some Truncated)
  ∧ (fs (in_session_dir (self w) "network_activity.json") = None →
     files r.1 !! in_session_dir (self w) "network_activity.json"
     = Some (NetworkActivity (network_log (self w)))).
Proof.
  cbv zeta.
  apply (done_raises_without_summary millis_clock decimal
           (disk_full "activity_sessions/0/session_summary.json")
           {| self := run millis_clock decimal latin1
                        (init millis_clock decimal 4)
                        [Response get_example;
                         WebsocketMessage chat_example];
              files := ∅ |} "No space left on device").
  vm_compute. reflexivity.
Defined.

(** X15: the summary that a returning call of [done] writes to a fresh
    session directory refers to the files written and to no other: the
    network-activity file is there with the generic log; the reference to
    the performance file is its path when the file was written, with the
    mapping in it, and null when it was not; and likewise for the stream
    file. *)
Theorem summary_references clock isoformat write_error (s : recorder) :
  let r := done clock isoformat write_error {| self := s; files := ∅ |} in
  r.2 = Returned tt →
  ∃ sm,
    files r.1 !! in_session_dir s "session_summary.json"
    = Some (SessionSummary sm)
    ∧ files r.1 !! f_network_activity (sm_files sm)
      = Some (NetworkActivity (network_log s))
    ∧ match f_performance_metrics (sm_files sm) with
      | Some path =>
          files r.1 !! path = Some (PerformanceMetrics (performance_metrics s))
      | None =>
          files r.1 !! in_session_dir s "performance_metrics.json" = None
      end
    ∧ match f_websocket_messages (sm_files sm) with
      | Some path =>
          files r.1 !! path = Some (WebsocketMessages (websocket_messages s))
      | None =>
          files r.1 !! in_session_dir s "websocket_messages.json" = None
      end.
Proof.
  cbv zeta. intros Hret. rewrite done_outcome in Hret.
  rewrite done_files, write_all_writable
    by (destruct (write_all _ _ _).2; done).
  clear Hret. cbn [self files].
  destruct (written_files isoformat s (clock (ticks s)))
    as (Hnet & Hpm & Hws & Hsum).
  eexists. split; [exact Hsum|].
  cbn [session_summary sm_files f_network_activity f_performance_metrics
       f_websocket_messages].
  split; [exact Hnet|]. split.
  - by destruct (bool_decide (performance_metrics s ≠ ∅)).
  - by destruct (bool_decide (websocket_messages s ≠ [])).
Qed.

Lemma summary_references_witness :
  let s := run millis_clock decimal latin1 (init millis_clock decimal 3)
             [RequestHeaders get_example; Response get_example] in
  let r := done millis_clock decimal writable {| self := s; files := ∅ |} in
  ∃ sm,
    files r.1 !! in_session_dir s "session_summary.json"
    = Some (SessionSummary sm)
    ∧ files r.1 !! f_network_activity (sm_files sm)
      = Some (NetworkActivity (network_log s))
    ∧ match f_performance_metrics (sm_files sm) with
      | Some path =>
          files r.1 !! path = Some (PerformanceMetrics (performance_metrics s))
      | None =>
          files r.1 !! in_session_dir s "performance_metrics.json" = None
      end
    ∧ match f_websocket_messages (sm_files sm) with
      | Some path =>
          files r.1 !! path = Some (WebsocketMessages (websocket_messages s))
      | None =>
          files r.1 !! in_session_dir s "websocket_messages.json" = None
      end.
Proof.
  cbv zeta.
  apply (summary_references millis_clock decimal writable
           (run millis_clock decimal latin1 (init millis_clock decimal 3)
              [RequestHeaders get_example; Response get_example])).
  reflexivity.
Defined.

(** X16: [done] reads the stores and does not change them: whether it
    returns or raises, the level, the generic log, the performance-record
    mapping, the stream log and the flow-timestamp table are after the call
    what they were before, so that a second call writes from the same
    data; the diagnostic log only gains lines. *)
Theorem done_keeps_stores clock isoformat write_error (w : world) :
  let s' := self (done clock isoformat write_error w).1 in
  record_level s' = record_level (self w)
  ∧ session_name s' = session_name (self w)
  ∧ network_log s' = network_log (self w)
  ∧ performance_metrics s' = performance_metrics (self w)
  ∧ websocket_messages s' = websocket_messages (self w)
  ∧ request_timestamps s' = request_timestamps (self w)
  ∧ ∃ lines,
      logger s'
      = (logger (self w) ++ (INFO, "Saving recorded data...") :: lines)%list.
Proof.
  cbv zeta.
  destruct (done_self clock isoformat write_error w)
    as (Hl & Hn & Hlog & Hpm & Hws & Hts).
  repeat (split; [assumption|]). apply done_logger.
Qed.

(** ** The session directory *)

Lemma replace_colons_get (s : string) (i : nat) :
  String.get i (replace_colons s)
  = (λ c, if Ascii.eqb c ":"%char then "-"%char else c) <$> String.get i s.
Proof.
  revert i. induction s as [|c s IH]; intros [|i]; cbn; try done.
Qed.

Lemma replace_colons_no_colon (s : string) :
  ":"%char ∉ String.list_ascii_of_string (replace_colons s).
Proof.
  induction s as [|c s IH]; cbn; [apply not_elem_of_nil|].
  apply not_elem_of_cons. split; [|done].
  destruct (Ascii.eqb_spec c ":"%char) as [->|Hne]; [done|].
  by intros <-.
Qed.

Lemma replace_colons_id (s : string) :
  ":"%char ∉ String.list_ascii_of_string s → replace_colons s = s.
Proof.
  induction s as [|c s IH]; cbn; [done|].
  intros [Hc Hs]%not_elem_of_cons. rewrite IH by done.
  destruct (Ascii.eqb_spec c ":"%char) as [->|Hne]; done.
Qed.

(** X17: the name of the session directory of a new recorder is the time
    of its creation with every colon replaced by a hyphen and every other
    character kept, position by position: the name holds no colon, and it
    is the time stamp itself when the stamp holds none. *)
Theorem init_session clock isoformat (level : Z) :
  let s := init clock isoformat level in
  let stamp := isoformat (clock 0%nat) in
  (∀ i, String.get i (session_name s)
        = (λ c, if Ascii.eqb c ":"%char then "-"%char else c)
            <$> String.get i stamp)
  ∧ ":"%char ∉ String.list_ascii_of_string (session_name s)
  ∧ (":"%char ∉ String.list_ascii_of_string stamp → session_name s = stamp)
  ∧ session_dir s = "activity_sessions/" +:+ session_name s.
Proof.
  cbv zeta. split; [|split; [|split]].
  - intros i. apply replace_colons_get.
  - apply replace_colons_no_colon.
  - apply replace_colons_id.
  - reflexivity.
Qed.

(** ** Bodies *)

Lemma prefix_short (n : nat) (s : string) :
  (String.length s ≤ n)%nat → prefix n s = s.
Proof.
  unfold prefix. revert s. induction n as [|n IH]; intros [|c s]; cbn;
    intros Hlen; try done; try lia.
  rewrite IH; [done|lia].
Qed.

(** X18: at level 2 or higher a request with a non-empty body is logged
    with the number of bytes of the body and a preview: the first 500
    characters of the decoded text, which is the whole text when it has at
    most 500 characters, and ["[binary data]"] when the text does not
    decode; the handler does not raise. *)
Theorem request_body_captured clock isoformat (s : recorder) (f : flow)
    (b : Byte.byte) (bs : bytes) :
  2 ≤ record_level s →
  content (Flow.request f) = Some (b :: bs) →
  ∃ e, last (network_log (requestheaders clock isoformat s f))
       = Some (RequestEntry e)
    ∧ rq_body_size e = Some (S (length bs))
    ∧ match text (Flow.request f) with
      | Some t =>
          rq_body_preview e = Some (prefix 500 t)
          ∧ ((String.length t ≤ 500)%nat → rq_body_preview e = Some t)
      | None => rq_body_preview e = Some "[binary data]"
      end.
Proof.
  intros Hlevel Hcontent. apply Z.leb_le in Hlevel.
  eexists. split; [|split].
  - unfold requestheaders. cbn. rewrite last_snoc. reflexivity.
  - cbn. by rewrite Hlevel, Hcontent.
  - cbn. rewrite Hlevel, Hcontent. cbn.
    destruct (text (Flow.request f)) as [t|]; [|done].
    split; [done|]. intros Hlen. cbn. by rewrite prefix_short.
Qed.

Lemma request_body_captured_witness :
  ∃ e, last (network_log
               (requestheaders millis_clock decimal
                  (init millis_clock decimal 2) binary_example))
       = Some (RequestEntry e)
    ∧ rq_body_size e = Some 2%nat
    ∧ rq_body_preview e = Some "[binary data]".
Proof.
  apply (request_body_captured millis_clock decimal
           (init millis_clock decimal 2) binary_example Byte.xff [Byte.xfe]).
  - cbn. lia.
  - reflexivity.
Defined.

(** X19: a response whose body is absent or empty is logged without body
    fields at every level, and the performance record written for it at
    level 3 or higher has a content size of 0. *)
Theorem response_empty_body clock isoformat (s : recorder) (f : flow) :
  truthy (resp_content (Flow.response f)) = false →
  (∃ e, last_response (response clock isoformat s f) = Some e
     ∧ rs_body_size e = None
     ∧ rs_body_preview e = None)
  ∧ (3 ≤ record_level s →
     pm_content_size_bytes
       <$> performance_metrics (response clock isoformat s f)
             !! url (Flow.request f)
     = Some 0%nat).
Proof.
  intros Hempty. split.
  - eexists. split; [|split].
    + unfold last_response, response. cbn. rewrite last_snoc. reflexivity.
    + cbn. by rewrite Hempty, andb_false_r.
    + cbn. by rewrite Hempty, andb_false_r.
  - intros Hlevel. apply Z.leb_le in Hlevel.
    unfold response. cbn. rewrite Hlevel. cbn.
    rewrite lookup_insert_eq. cbn. by rewrite Hempty.
Qed.

Lemma response_empty_body_witness :
  (∃ e, last_response
          (response millis_clock decimal (init millis_clock decimal 3)
             binary_example) = Some e
     ∧ rs_body_size e = None
     ∧ rs_body_preview e = None)
  ∧ (3 ≤ 3 →
     pm_content_size_bytes
       <$> performance_metrics
             (response millis_clock decimal (init millis_clock decimal 3)
                binary_example)
             !! "http://example.com/blob"
     = Some 0%nat).
Proof.
  apply (response_empty_body millis_clock decimal
           (init millis_clock decimal 3) binary_example).
  reflexivity.
Defined.

(** ** Counting stream entries *)

(** X20: the stream log grows, at every [websocket_message] event handled
    at level 4 or higher, by the number of messages the flow holds at that
    event, and not otherwise: a message that is still on the flow at a later
    event is logged again. *)
Theorem stream_log_length clock isoformat decode_replace
    (s : recorder) (evs : list event) :
  length (websocket_messages (run clock isoformat decode_replace s evs))
  = (length (websocket_messages s)
     + buffered clock isoformat decode_replace s evs)%nat.
Proof.
  revert s. induction evs as [|e evs IH]; intros s.
  - cbn. lia.
  - rewrite run_cons, IH, handle_stream_log, length_app. cbn [buffered].
    destruct e as [updated l|f|f|f|f]; cbn [length]; try lia.
    destruct (4 <=? record_level s); cbn [length]; [|lia].
    rewrite length_imap. lia.
Qed.
